(** * Bulk e-mail verifier: domain resolver, SMTP prober and batch driver

    A shallow embedding of [src/modules/domain_lookup.py],
    [src/modules/smtp_checker.py] and the batch loop of [src/main.py],
    together with the properties of the three components.

    Conventions of the embedding.
    - A Python [str] is a [string]; a character is read as the code point
      of the same number, so the strings covered are those whose code
      points are below 256.  [str.strip], [str.lower] and [str.rstrip] are
      written out with Python's behaviour on that range.
    - A Python [int] is a [Z].
    - The result dictionaries are records; the status and method literals,
      all of which are visible in the source, are enumerations.
    - Calls that leave the program (the dnspython MX query, the socket
      address lookup, the SMTP session) are steps of an abstract [network]
      acting on a [world]; each either returns or raises.  A computation
      is a function from the world to an outcome, the new world and the
      list of calls it made, in order.
    - An exception is an instance of Python's [Exception], with the class
      it is dispatched on and the text [str(exc)].  Logging is left out.
    - The first line of each source file reads [thonimport logging]; it is
      taken as [import logging]. *)

From Stdlib Require Import ZArith List String Ascii Bool Lia.
From Stdlib Require Import DecimalString.
Import ListNotations.

Local Open Scope string_scope.
Local Open Scope Z_scope.
Local Open Scope list_scope.

(** ** Python strings *)

Module PyStr.

Definition code (c : ascii) : N := N_of_ascii c.

(** [str.isspace] on one character, for code points below 256:
    TAB..CR, FS..US, SPACE, NEL and NBSP. *)
Definition isspace (c : ascii) : bool :=
  let n := code c in
  (((9 <=? n) && (n <=? 13)) || ((28 <=? n) && (n <=? 32))
   || (n =? 133) || (n =? 160))%N%bool.

(** [str.lower] on one character, for code points below 256: A..Z and
    the capital letters of the Latin-1 block (all of U+00C0..U+00DE but
    the multiplication sign) move up by 32. *)
Definition lower_char (c : ascii) : ascii :=
  let n := code c in
  if (((65 <=? n) && (n <=? 90))
      || ((192 <=? n) && (n <=? 222) && negb (n =? 215)))%N%bool
  then ascii_of_N (n + 32) else c.

Definition is_dot (c : ascii) : bool := Ascii.eqb c ".".

Fixpoint map_chars (f : ascii -> ascii) (s : string) : string :=
  match s with
  | EmptyString => EmptyString
  | String c r => String (f c) (map_chars f r)
  end.

(** [s.lower()] *)
Definition lower (s : string) : string := map_chars lower_char s.

(** Removal of the leading characters that satisfy [p]. *)
Fixpoint lstrip_by (p : ascii -> bool) (s : string) : string :=
  match s with
  | EmptyString => EmptyString
  | String c r => if p c then lstrip_by p r else s
  end.

(** Removal of the trailing characters that satisfy [p]. *)
Fixpoint rstrip_by (p : ascii -> bool) (s : string) : string :=
  match s with
  | EmptyString => EmptyString
  | String c r =>
      match rstrip_by p r with
      | EmptyString => if p c then EmptyString else String c EmptyString
      | r' => String c r'
      end
  end.

(** [s.strip()] *)
Definition strip (s : string) : string :=
  rstrip_by isspace (lstrip_by isspace s).

(** [s.rstrip(".")] *)
Definition rstrip_dot (s : string) : string := rstrip_by is_dot s.

(** The last character of [s] is a dot. *)
Fixpoint ends_with_dot (s : string) : bool :=
  match s with
  | EmptyString => false
  | String c EmptyString => is_dot c
  | String _ r => ends_with_dot r
  end.

(** [str(n)] for an [int]. *)
Definition of_int (n : Z) : string := NilZero.string_of_int (Z.to_int n).

(** Truth value of a string: [not s]. *)
Definition is_empty (s : string) : bool :=
  match s with
  | EmptyString => true
  | String _ _ => false
  end.

End PyStr.

(** ** Exceptions *)

(** The classes the source dispatches on, and [ConnectionRefusedError],
    the class of what a refused TCP connection raises, which the source
    does not name.  A value of a class stands for an instance of that
    class or of one of its subclasses; [OtherException] is an instance of
    [Exception] that belongs to none of the named ones (for instance
    [ValueError] or [smtplib.SMTPResponseException] outside
    [SMTPConnectError]). *)
Inductive exn_class : Type :=
| ImportError
| SocketTimeout            (* socket.timeout *)
| SocketGaierror           (* socket.gaierror *)
| SMTPServerDisconnected   (* smtplib.SMTPServerDisconnected *)
| SMTPConnectError         (* smtplib.SMTPConnectError *)
| ConnectionRefusedError
| OtherException.

Record exn : Type := Exn { exn_cls : exn_class; exn_str : string }.

Definition is_ImportError (e : exn) : bool :=
  match exn_cls e with ImportError => true | _ => false end.

Definition is_gaierror (e : exn) : bool :=
  match exn_cls e with SocketGaierror => true | _ => false end.

(** [isinstance(e, (socket.timeout, smtplib.SMTPServerDisconnected,
    smtplib.SMTPConnectError))] *)
Definition is_timeout_or_disconnect (e : exn) : bool :=
  match exn_cls e with
  | SocketTimeout | SMTPServerDisconnected | SMTPConnectError => true
  | _ => false
  end.

(** What a call does: it returns a value or raises. *)
Inductive outcome (A : Type) : Type :=
| Returns (a : A)
| Raises (e : exn).
Arguments Returns {A} a.
Arguments Raises {A} e.

(** ** Result records *)

Inductive lookup_status : Type := LookupOk | LookupInvalid.
Inductive lookup_method : Type := Dnspython | Socket | MethodNone.

(** The dictionary built by the functions of [domain_lookup.py]. *)
Record lookup_result : Type := LookupResult {
  l_status : lookup_status;
  l_message : string;
  mx_records : list string;
  l_method : lookup_method
}.

Inductive smtp_status : Type := SmtpOk | SmtpUnreachable | SmtpUnknown.

(** The dictionary built by the functions of [smtp_checker.py]. *)
Record smtp_result : Type := SmtpResult {
  s_status : smtp_status;
  s_message : string
}.

(** The dictionary appended to [results] in [main.py]. *)
Record verdict : Type := Verdict {
  v_email : string;
  v_email_status : string;
  v_message : string;
  v_format : string;
  v_mailbox_status : string;
  v_mailbox_type : string;
  v_domain : string
}.

(** ** The network and the computations over it *)

(** The three ways in which the program leaves the process.
    - [dns_resolve_mx domain timeout]: [import dns.resolver], a resolver
      with [lifetime = timeout], [resolve(domain, "MX")] and the reading
      of [str(rdata.exchange)] for every answer; [ImportError] when the
      library is absent.
    - [socket_getaddrinfo domain timeout]: [socket.setdefaulttimeout
      (timeout)] followed by [socket.getaddrinfo(domain, None)].
    - [smtp_noop host timeout]: the [with smtplib.SMTP(host, 25, timeout)]
      block around [server.noop()], from the connection to the release of
      the session; it returns the reply code of NOOP or raises. *)
Record network : Type := Network {
  world : Type;
  dns_resolve_mx : string -> Z -> world -> outcome (list string) * world;
  socket_getaddrinfo : string -> Z -> world -> outcome unit * world;
  smtp_noop : string -> Z -> world -> outcome Z * world
}.

(** A call made to the network, with what it gave back. *)
Inductive event : Type :=
| MXQuery (domain : string) (timeout : Z) (o : outcome (list string))
| AddrInfo (domain : string) (timeout : Z) (o : outcome unit)
| SMTPSession (host : string) (timeout : Z) (o : outcome Z).

Section Computations.

Variable N : network.

Definition io (A : Type) : Type :=
  world N -> outcome A * world N * list event.

Definition ret {A} (a : A) : io A := fun w => (Returns a, w, []).

Definition raise {A} (e : exn) : io A := fun w => (Raises e, w, []).

Definition bind {A B} (m : io A) (k : A -> io B) : io B :=
  fun w =>
    match m w with
    | (Returns a, w1, t1) =>
        let '(r, w2, t2) := k a w1 in (r, w2, t1 ++ t2)
    | (Raises e, w1, t1) => (Raises e, w1, t1)
    end.

(** [try: m  except Exception as exc: h exc]; a handler that does not
    apply to [exc] raises it again. *)
Definition try_except {A} (m : io A) (h : exn -> io A) : io A :=
  fun w =>
    match m w with
    | (Returns a, w1, t1) => (Returns a, w1, t1)
    | (Raises e, w1, t1) =>
        let '(r, w2, t2) := h e w1 in (r, w2, t1 ++ t2)
    end.

Definition call_mx (domain : string) (timeout : Z) : io (list string) :=
  fun w =>
    let '(o, w1) := dns_resolve_mx N domain timeout w in
    (o, w1, [MXQuery domain timeout o]).

Definition call_getaddrinfo (domain : string) (timeout : Z) : io unit :=
  fun w =>
    let '(o, w1) := socket_getaddrinfo N domain timeout w in
    (o, w1, [AddrInfo domain timeout o]).

Definition call_smtp (host : string) (timeout : Z) : io Z :=
  fun w =>
    let '(o, w1) := smtp_noop N host timeout w in
    (o, w1, [SMTPSession host timeout o]).

End Computations.

Arguments ret {N A} a.
Arguments raise {N A} e.
Arguments bind {N A B} m k.
Arguments try_except {N A} m h.

Declare Scope io_scope.
Delimit Scope io_scope with io.
Notation "x <- m ;; k" := (bind m (fun x => k))
  (at level 61, m at next level, right associativity) : io_scope.
Notation "'try' m 'except' e => h" := (try_except m (fun e => h))
  (at level 62, m at level 61, e name, h at level 61) : io_scope.
Local Open Scope io_scope.

(** ** [src/modules/smtp_checker.py] *)

Section SmtpChecker.

Variable N : network.

Definition _get_mx_hosts_via_dnspython (domain : string) (timeout : Z)
  : io N (list string) :=
  try
    (answers <- call_mx N domain timeout ;;
     ret (map PyStr.rstrip_dot answers))
  except exc =>
    ret [].

Definition _guess_mx_host_from_domain (domain : string) : list string :=
  [ ("mail." ++ domain)%string; ("mx." ++ domain)%string; domain ].

Definition _probe_smtp_host (host : string) (timeout : Z) : io N smtp_result :=
  try
    (code <- call_smtp N host timeout ;;
     if (200 <=? code) && (code <? 400) then
       ret {| s_status := SmtpOk;
              s_message := ("SMTP server " ++ host ++ " responded with code "
                            ++ PyStr.of_int code ++ ".")%string |}
     else
       ret {| s_status := SmtpUnreachable;
              s_message := ("SMTP server " ++ host ++ " responded with code "
                            ++ PyStr.of_int code ++ ".")%string |})
  except exc =>
    if is_timeout_or_disconnect exc then
      ret {| s_status := SmtpUnreachable;
             s_message := ("SMTP server " ++ host
                           ++ " is unreachable or disconnected.")%string |}
    else
      ret {| s_status := SmtpUnknown;
             s_message := ("Unexpected SMTP error while connecting to "
                           ++ host ++ ": " ++ exn_str exc)%string |}.

(** [result["status"] in ("ok", "unreachable")] *)
Definition conclusive (st : smtp_status) : bool :=
  match st with
  | SmtpOk | SmtpUnreachable => true
  | SmtpUnknown => false
  end.

(** The [for host in hosts] loop of [check_smtp_server]: [Some result] when
    the loop is left by its [return], [None] when the hosts run out. *)
Fixpoint probe_hosts (hosts : list string) (timeout : Z)
  : io N (option smtp_result) :=
  match hosts with
  | [] => ret None
  | host :: rest =>
      result <- _probe_smtp_host host timeout ;;
      if conclusive (s_status result) then ret (Some result)
      else probe_hosts rest timeout
  end.

Definition check_smtp_server (domain : string) (timeout : Z)
  : io N smtp_result :=
  let domain := PyStr.lower (PyStr.strip domain) in
  if PyStr.is_empty domain then
    ret {| s_status := SmtpUnknown;
           s_message := "Domain is empty; cannot perform SMTP check." |}
  else
    hosts <- _get_mx_hosts_via_dnspython domain timeout ;;
    let hosts :=
      match hosts with
      | [] => _guess_mx_host_from_domain domain
      | _ :: _ => hosts
      end in
    found <- probe_hosts hosts timeout ;;
    match found with
    | Some result => ret result
    | None =>
        ret {| s_status := SmtpUnknown;
               s_message := ("Unable to determine SMTP status for domain "
                             ++ domain ++ ".")%string |}
    end.

End SmtpChecker.

(** ** [src/modules/domain_lookup.py] *)

Section DomainLookup.

Variable N : network.

Definition _resolve_with_dnspython (domain : string) (timeout : Z)
  : io N lookup_result :=
  try
    (answers <- call_mx N domain timeout ;;
     let mx_records := map PyStr.rstrip_dot answers in
     ret {| l_status := match mx_records with
                        | [] => LookupInvalid
                        | _ :: _ => LookupOk
                        end;
            l_message := match mx_records with
                         | [] => "No MX records found."
                         | _ :: _ => "MX records found."
                         end;
            mx_records := mx_records;
            l_method := Dnspython |})
  except exc =>
    if is_ImportError exc then
      raise exc
    else
      ret {| l_status := LookupInvalid;
             l_message := ("MX lookup failed: " ++ exn_str exc)%string;
             mx_records := [];
             l_method := Dnspython |}.

Definition _resolve_with_socket (domain : string) (timeout : Z)
  : io N lookup_result :=
  try
    (_ <- call_getaddrinfo N domain timeout ;;
     ret {| l_status := LookupOk;
            l_message := "Domain resolves via A/AAAA records.";
            mx_records := [];
            l_method := Socket |})
  except exc =>
    if is_gaierror exc then
      ret {| l_status := LookupInvalid;
             l_message := ("Domain does not resolve: " ++ exn_str exc)%string;
             mx_records := [];
             l_method := Socket |}
    else
      ret {| l_status := LookupInvalid;
             l_message := ("Unexpected DNS error: " ++ exn_str exc)%string;
             mx_records := [];
             l_method := Socket |}.

Definition lookup_domain (domain : string) (timeout : Z)
  : io N lookup_result :=
  let domain := PyStr.lower (PyStr.strip domain) in
  if PyStr.is_empty domain then
    ret {| l_status := LookupInvalid;
           l_message := "Domain name is empty.";
           mx_records := [];
           l_method := MethodNone |}
  else
    try
      _resolve_with_dnspython domain timeout
    except exc =>
      if is_ImportError exc then
        _resolve_with_socket domain timeout
      else
        raise exc.

End DomainLookup.

(** ** [src/main.py]: the loop over the batch *)

Section Main.

Variable N : network.

(** [validator.validate] of [modules/validator.py], which the batch driver
    calls; the driver is the same whatever this computation is. *)
Variable validate : string -> io N verdict.

(** The dictionary appended when [validate] raises. *)
Definition internal_error_verdict (email : string) (exc : exn) : verdict :=
  {| v_email := email;
     v_email_status := "unknown";
     v_message := ("Internal error during validation: " ++ exn_str exc)%string;
     v_format := "unknown";
     v_mailbox_status := "unknown";
     v_mailbox_type := "unknown";
     v_domain := "" |}.

(** The [for idx, email in enumerate(emails, start=1)] loop of [main],
    started with the list [results] built so far. *)
Fixpoint main_loop (emails : list string) (results : list verdict)
  : io N (list verdict) :=
  match emails with
  | [] => ret results
  | email :: rest =>
      result <- (try validate email
                 except exc => ret (internal_error_verdict email exc)) ;;
      main_loop rest (results ++ [result])
  end.

(** [results] as [main] has it after the loop. *)
Definition main_results (emails : list string) : io N (list verdict) :=
  main_loop emails [].

End Main.

(** ** Vocabulary of the statements *)

(** [domain.strip().lower()], the first statement of [lookup_domain] and of
    [check_smtp_server]: the value the name [domain] holds in the rest of
    either function. *)
Definition normalize (domain : string) : string :=
  PyStr.lower (PyStr.strip domain).

(** The classification of one probe in the words of the specification:
    a reply code from 200 to 399 is [ok], any other code is
    [unreachable], a timeout, a disconnection or a refused connection is
    [unreachable], any other exception is [unknown]. *)
Definition probe_status (o : outcome Z) : smtp_status :=
  match o with
  | Returns code =>
      if (200 <=? code) && (code <? 400) then SmtpOk else SmtpUnreachable
  | Raises e =>
      match exn_cls e with
      | SocketTimeout | SMTPServerDisconnected | SMTPConnectError =>
          SmtpUnreachable
      | _ => SmtpUnknown
      end
  end.


(** The list the loop of [check_smtp_server] runs over, given the hosts
    that [_get_mx_hosts_via_dnspython] returned: those hosts, or the
    guessed ones when there are none. *)
Definition candidate_hosts (mx : list string) (domain : string) : list string :=
  match mx with
  | [] => _guess_mx_host_from_domain domain
  | _ :: _ => mx
  end.

(** The hosts of the SMTP sessions of a trace, in the order of the calls. *)
Fixpoint smtp_hosts_of (tr : list event) : list string :=
  match tr with
  | [] => []
  | SMTPSession host _ _ :: rest => host :: smtp_hosts_of rest
  | _ :: rest => smtp_hosts_of rest
  end.

(** Every SMTP session of the trace had an outcome satisfying [P]. *)
Definition every_probe (P : outcome Z -> Prop) (tr : list event) : Prop :=
  Forall (fun ev => match ev with
                    | SMTPSession _ _ o => P o
                    | _ => True
                    end) tr.

(** The trace holds SMTP sessions only. *)
Definition only_probes (tr : list event) : Prop :=
  Forall (fun ev => match ev with
                    | SMTPSession _ _ _ => True
                    | _ => False
                    end) tr.

(** ** The stages of an SMTP session *)



(** ** Networks to run the program on *)

(** A network whose answers depend on the name asked for only; its world
    counts the calls made. *)
Definition table_network
  (mx : string -> outcome (list string))
  (addr : string -> outcome unit)
  (smtp : string -> outcome Z) : network :=
  {| world := nat;
     dns_resolve_mx := fun domain _ w => (mx domain, S w);
     socket_getaddrinfo := fun domain _ w => (addr domain, S w);
     smtp_noop := fun host _ w => (smtp host, S w) |}.

(** dnspython is installed and finds no MX record; no address resolves;
    [mail.example.com] does not answer in time, every other host answers
    NOOP with 250. *)
Definition net_no_mx : network :=
  table_network
    (fun _ => Returns [])
    (fun _ => Raises (Exn SocketGaierror "[Errno -2] Name or service not known"))
    (fun host => if String.eqb host "mail.example.com"
                 then Raises (Exn SocketTimeout "timed out")
                 else Returns 250).

(** dnspython is installed; [example.com] has two MX records, every other
    domain makes the query fail; [mx1.example.com] fails in a way the
    prober does not name, [mx2.example.com] answers NOOP with 250, every
    other host answers 554. *)
Definition net_with_mx : network :=
  table_network
    (fun domain => if String.eqb domain "example.com"
                   then Returns ["mx1.example.com."; "mx2.example.com."]
                   else Raises (Exn OtherException "The DNS query name does not exist"))
    (fun _ => Returns tt)
    (fun host => if String.eqb host "mx1.example.com"
                 then Raises (Exn OtherException "STARTTLS extension not supported by server.")
                 else if String.eqb host "mx2.example.com"
                      then Returns 250
                      else Returns 554).

(** dnspython is not installed; [example.com] resolves, [example.invalid]
    does not, any other lookup fails in another way; every SMTP session
    fails in a way the prober does not name. *)
Definition net_no_dnspython : network :=
  table_network
    (fun _ => Raises (Exn ImportError "No module named 'dns'"))
    (fun domain => if String.eqb domain "example.com" then Returns tt
                   else if String.eqb domain "example.invalid"
                        then Raises (Exn SocketGaierror "[Errno -2] Name or service not known")
                        else Raises (Exn OtherException "Timeout value out of range"))
    (fun _ => Raises (Exn OtherException "label empty or too long")).



(** A validator for the batch driver: it fails on the address [boom] and
    reports every other address as valid. *)
Definition toy_validate (N : network) (email : string) : io N verdict :=
  if String.eqb email "boom" then
    raise (Exn OtherException "list index out of range")
  else
    ret {| v_email := email;
           v_email_status := "valid";
           v_message := "";
           v_format := "valid";
           v_mailbox_status := "ok";
           v_mailbox_type := "unknown";
           v_domain := "" |}.

(** ** Vocabulary of the further statements *)

(** The timeout a call was made with. *)
Definition event_timeout (ev : event) : Z :=
  match ev with
  | MXQuery _ timeout _ => timeout
  | AddrInfo _ timeout _ => timeout
  | SMTPSession _ timeout _ => timeout
  end.

(** A string of [k] dots. *)
Fixpoint dots (k : nat) : string :=
  match k with
  | O => EmptyString
  | S k' => String "." (dots k')
  end.

(** The run of a batch, address by address: every address is validated
    once, the first in the state [w] and each next one in the state that
    the validation before it left; its verdict is the one that [validate]
    returned or, when [validate] raised, the verdict built from the
    address and the exception; the calls are those of the validations, in
    order, and [w'] is the state that the last one left. *)
Inductive validated_in_order (N : network) (validate : string -> io N verdict)
  : list string -> world N -> list verdict -> world N -> list event -> Prop :=
| validated_none (w : world N) :
    validated_in_order N validate [] w [] w []
| validated_returned (email : string) (rest : list string)
    (w w1 w' : world N) (v : verdict) (vs : list verdict)
    (t1 tr : list event) :
    validate email w = (Returns v, w1, t1) ->
    validated_in_order N validate rest w1 vs w' tr ->
    validated_in_order N validate (email :: rest) w (v :: vs) w' (t1 ++ tr)
| validated_raised (email : string) (rest : list string)
    (w w1 w' : world N) (exc : exn) (vs : list verdict)
    (t1 tr : list event) :
    validate email w = (Raises exc, w1, t1) ->
    validated_in_order N validate rest w1 vs w' tr ->
    validated_in_order N validate (email :: rest) w
      (internal_error_verdict email exc :: vs) w' (t1 ++ tr).

(** ** [src/main.py]: the settings *)

Local Unset Elimination Schemes.

(** A value read by [json.load]; a float is kept as its text. *)
Inductive json : Type :=
| JNull
| JBool (b : bool)
| JInt (n : Z)
| JFloat (repr : string)
| JStr (s : string)
| JList (items : list json)
| JDict (items : list (string * json)).

Local Set Elimination Schemes.

(** A Python [dict] with string keys: the bindings in insertion order,
    one per key. *)
Definition dict : Type := list (string * json).

(** [d.get(key)] *)
Fixpoint dict_get (d : dict) (key : string) : option json :=
  match d with
  | [] => None
  | (k, v) :: rest => if String.eqb k key then Some v else dict_get rest key
  end.

(** [d[key] = value]: the binding of an existing key is replaced where it
    stands, a new key is added at the end. *)
Fixpoint dict_set (d : dict) (key : string) (value : json) : dict :=
  match d with
  | [] => [(key, value)]
  | (k, v) :: rest =>
      if String.eqb k key then (k, value) :: rest
      else (k, v) :: dict_set rest key value
  end.

(** [d.update(data)] *)
Definition dict_update (d data : dict) : dict :=
  fold_left (fun acc kv => dict_set acc (fst kv) (snd kv)) data d.

(** [d.get(key, default)] *)
Definition dict_get_default (d : dict) (key : string) (default : json) : json :=
  match dict_get d key with
  | Some v => v
  | None => default
  end.

(** The classes [load_settings] dispatches on: [FileNotFoundError],
    [ValueError] (of which [json.JSONDecodeError] is a subclass), and any
    other exception. *)
Inductive config_exn_class : Type :=
| FileNotFoundError
| ValueError
| OtherConfigError.

(** What [with open(config_path, "r", encoding="utf-8") as f:
    data = json.load(f)] does: it yields the value read or raises, with
    the class and the text of the exception. *)
Inductive config_read : Type :=
| ConfigReturns (data : json)
| ConfigRaises (cls : config_exn_class) (text : string).

(** What [load_settings] does: it returns the settings, having printed
    some lines, or raises. *)
Inductive settings_outcome : Type :=
| SettingsReturns (settings : dict) (printed : list string)
| SettingsRaises (cls : config_exn_class) (text : string).

Section Settings.

(** The two paths that [load_settings] builds from the place of
    [main.py] with [os.path]: [data/sample_emails.txt] and
    [data/output.json] beside the source directory. *)
Variable sample_emails_path : string.
Variable output_json_path : string.

(** The reading of the configuration file. *)
Variable read_config : string -> config_read.

(** The dictionary [defaults] as [load_settings] first builds it. *)
Definition defaults : dict :=
  [ ("default_input_path", JStr sample_emails_path);
    ("default_output_path", JStr output_json_path);
    ("dns_timeout", JInt 5);
    ("smtp_timeout", JInt 8);
    ("log_level", JStr "INFO") ].

(** The line printed by the second handler of [load_settings]. *)
Definition config_warning (config_path text : string) : string :=
  ("Warning: Failed to load config from " ++ config_path ++ ": " ++ text
   ++ ". Using defaults.")%string.

Definition load_settings (config_path : string) : settings_outcome :=
  match read_config config_path with
  | ConfigReturns data =>
      match data with
      | JDict items => SettingsReturns (dict_update defaults items) []
      | _ =>
          (* raise ValueError("Config root must be an object"), handled
             by the second handler *)
          SettingsReturns defaults
            [config_warning config_path "Config root must be an object"]
      end
  | ConfigRaises FileNotFoundError _ => SettingsReturns defaults []
  | ConfigRaises ValueError text =>
      SettingsReturns defaults [config_warning config_path text]
  | ConfigRaises OtherConfigError text => SettingsRaises OtherConfigError text
  end.

End Settings.

(** A configuration file that sets the SMTP timeout and one key of its
    own. *)
Definition sample_config : json :=
  JDict [ ("smtp_timeout", JInt 20); ("retries", JInt 2) ].

(** A file system with [settings.json] holding [sample_config], with
    [list.json] holding a list, with [broken.json] holding no JSON, with
    [locked.json] not readable, and with no other file. *)
Definition sample_read_config (path : string) : config_read :=
  if String.eqb path "settings.json" then ConfigReturns sample_config
  else if String.eqb path "list.json" then ConfigReturns (JList [JInt 1])
  else if String.eqb path "broken.json" then
    ConfigRaises ValueError "Expecting value: line 1 column 1 (char 0)"
  else if String.eqb path "locked.json" then
    ConfigRaises OtherConfigError "[Errno 13] Permission denied: 'locked.json'"
  else
    ConfigRaises FileNotFoundError
      "[Errno 2] No such file or directory".

(** * Properties *)

(** ** Normalisation of a domain *)

Ltac all_chars c :=
  destruct c as [[|] [|] [|] [|] [|] [|] [|] [|]].

Lemma lower_char_isspace (c : ascii) :
  PyStr.isspace (PyStr.lower_char c) = PyStr.isspace c.
Proof. all_chars c; reflexivity. Qed.

Lemma lower_char_idem (c : ascii) :
  PyStr.lower_char (PyStr.lower_char c) = PyStr.lower_char c.
Proof. all_chars c; reflexivity. Qed.

Lemma lower_idem (s : string) : PyStr.lower (PyStr.lower s) = PyStr.lower s.
Proof.
  unfold PyStr.lower.
  induction s as [|c r IH]; simpl; [reflexivity|].
  now rewrite lower_char_idem, IH.
Qed.

Section Strip.

Variable p : ascii -> bool.

Lemma lstrip_by_head (s : string) (c : ascii) (r : string) :
  PyStr.lstrip_by p s = String c r -> p c = false.
Proof.
  induction s as [|a s IH]; simpl; [discriminate|].
  destruct (p a) eqn:Ha; [exact IH|].
  intros H; injection H as -> _. exact Ha.
Qed.

Lemma rstrip_by_idem (s : string) :
  PyStr.rstrip_by p (PyStr.rstrip_by p s) = PyStr.rstrip_by p s.
Proof.
  induction s as [|a s IH]; simpl; [reflexivity|].
  destruct (PyStr.rstrip_by p s) as [|b s'] eqn:E.
  - destruct (p a) eqn:Ha; simpl; [reflexivity|now rewrite Ha].
  - change (PyStr.rstrip_by p (String a (String b s'))) with
      (match PyStr.rstrip_by p (String b s') with
       | EmptyString => if p a then EmptyString else String a EmptyString
       | String _ _ as r' => String a r'
       end).
    now rewrite IH.
Qed.

Lemma rstrip_by_keeps_head (a : ascii) (s : string) :
  p a = false ->
  exists r, PyStr.rstrip_by p (String a s) = String a r.
Proof.
  intros Ha. simpl.
  destruct (PyStr.rstrip_by p s) as [|b s'].
  - rewrite Ha. now exists EmptyString.
  - now exists (String b s').
Qed.

Lemma strip_by_idem (s : string) :
  PyStr.rstrip_by p (PyStr.lstrip_by p
    (PyStr.rstrip_by p (PyStr.lstrip_by p s)))
  = PyStr.rstrip_by p (PyStr.lstrip_by p s).
Proof.
  destruct (PyStr.lstrip_by p s) as [|a u] eqn:E; [reflexivity|].
  pose proof (lstrip_by_head _ _ _ E) as Ha.
  destruct (rstrip_by_keeps_head a u Ha) as [r Hr].
  assert (Hl : PyStr.lstrip_by p (PyStr.rstrip_by p (String a u))
               = PyStr.rstrip_by p (String a u)).
  { rewrite Hr. simpl. now rewrite Ha. }
  rewrite Hl. apply rstrip_by_idem.
Qed.

Variable f : ascii -> ascii.
Hypothesis p_f : forall c, p (f c) = p c.

Lemma lstrip_by_map (s : string) :
  PyStr.lstrip_by p (PyStr.map_chars f s)
  = PyStr.map_chars f (PyStr.lstrip_by p s).
Proof.
  induction s as [|a s IH]; simpl; [reflexivity|].
  rewrite p_f. destruct (p a); [exact IH|reflexivity].
Qed.

Lemma rstrip_by_map (s : string) :
  PyStr.rstrip_by p (PyStr.map_chars f s)
  = PyStr.map_chars f (PyStr.rstrip_by p s).
Proof.
  induction s as [|a s IH]; simpl; [reflexivity|].
  rewrite IH, p_f.
  destruct (PyStr.rstrip_by p s) as [|b s']; simpl; [|reflexivity].
  destruct (p a); reflexivity.
Qed.

End Strip.

Lemma strip_lower (s : string) :
  PyStr.strip (PyStr.lower s) = PyStr.lower (PyStr.strip s).
Proof.
  unfold PyStr.strip, PyStr.lower.
  rewrite lstrip_by_map by apply lower_char_isspace.
  apply rstrip_by_map, lower_char_isspace.
Qed.

Lemma strip_idem (s : string) : PyStr.strip (PyStr.strip s) = PyStr.strip s.
Proof. apply strip_by_idem. Qed.

Lemma normalize_idem (d : string) : normalize (normalize d) = normalize d.
Proof.
  unfold normalize.
  now rewrite strip_lower, strip_idem, lower_idem.
Qed.

Lemma rstrip_dot_no_trailing_dot (s : string) :
  PyStr.ends_with_dot (PyStr.rstrip_dot s) = false.
Proof.
  unfold PyStr.rstrip_dot.
  induction s as [|a s IH]; simpl; [reflexivity|].
  destruct (PyStr.rstrip_by PyStr.is_dot s) as [|b s'].
  - destruct (PyStr.is_dot a) eqn:Ha; simpl; [reflexivity|exact Ha].
  - exact IH.
Qed.

Lemma is_empty_true (s : string) : PyStr.is_empty s = true <-> s = "".
Proof. destruct s; simpl; split; congruence. Qed.

Lemma is_empty_false (s : string) : PyStr.is_empty s = false <-> s <> "".
Proof. destruct s; simpl; split; congruence. Qed.

(** ** The SMTP prober *)

Section SmtpProperties.

Variable N : network.

(** One probe is one SMTP session; it always returns a result, whose
    status is the classification of what the session did. *)
Lemma probe_smtp_host_run (host : string) (t : Z) (w : world N) :
  exists r,
    _probe_smtp_host N host t w
    = (Returns r, snd (smtp_noop N host t w),
       [SMTPSession host t (fst (smtp_noop N host t w))])
    /\ s_status r = probe_status (fst (smtp_noop N host t w)).
Proof.
  unfold _probe_smtp_host, try_except, bind, call_smtp, ret.
  destruct (smtp_noop N host t w) as [[code|e] w1]; simpl.
  - destruct ((200 <=? code) && (code <? 400)); simpl;
      eexists; split; reflexivity.
  - unfold is_timeout_or_disconnect.
    destruct (exn_cls e); simpl; eexists; split; reflexivity.
Qed.


Lemma conclusive_false (st : smtp_status) :
  conclusive st = false <-> st = SmtpUnknown.
Proof. destruct st; simpl; split; congruence. Qed.

Lemma smtp_hosts_of_app (t1 t2 : list event) :
  smtp_hosts_of (t1 ++ t2) = smtp_hosts_of t1 ++ smtp_hosts_of t2.
Proof.
  induction t1 as [|ev t1 IH]; simpl; [reflexivity|].
  destruct ev; simpl; now rewrite IH.
Qed.

(** The loop over the candidates: either it runs through all of them and
    every probe is [unknown], or it stops at a candidate [host] whose probe
    is conclusive, every probe before it being [unknown] and no candidate
    after it being probed. *)
Lemma probe_hosts_run (hosts : list string) (t : Z) (w : world N) :
  (exists w' tr,
      probe_hosts N hosts t w = (Returns None, w', tr)
      /\ smtp_hosts_of tr = hosts
      /\ only_probes tr
      /\ every_probe (fun o => probe_status o = SmtpUnknown) tr)
  \/
  (exists pre host post w1 t1 r w' o,
      hosts = pre ++ host :: post
      /\ probe_hosts N pre t w = (Returns None, w1, t1)
      /\ smtp_hosts_of t1 = pre
      /\ only_probes t1
      /\ every_probe (fun o => probe_status o = SmtpUnknown) t1
      /\ _probe_smtp_host N host t w1 = (Returns r, w', [SMTPSession host t o])
      /\ s_status r = probe_status o
      /\ conclusive (s_status r) = true
      /\ probe_hosts N hosts t w
         = (Returns (Some r), w', t1 ++ [SMTPSession host t o])).
Proof.
  revert w. induction hosts as [|h rest IH]; intros w.
  - left. exists w, []. repeat split; constructor.
  - destruct (probe_smtp_host_run h t w) as (r & Hrun & Hst).
    set (o := fst (smtp_noop N h t w)) in *.
    set (w1 := snd (smtp_noop N h t w)) in *.
    destruct (conclusive (s_status r)) eqn:Hc.
    + right. exists [], h, rest, w, [], r, w1, o.
      repeat split; try constructor; try assumption.
      simpl. unfold bind. rewrite Hrun, Hc. reflexivity.
    + assert (Hunk : probe_status o = SmtpUnknown)
        by (rewrite <- Hst; now apply conclusive_false).
      assert (Hstep : forall l x,
                 probe_hosts N l t w1 = x ->
                 probe_hosts N (h :: l) t w
                 = (fst (fst x), snd (fst x), SMTPSession h t o :: snd x)).
      { intros l x <-. simpl. unfold bind at 1. rewrite Hrun, Hc.
        destruct (probe_hosts N l t w1) as [[x1 x2] x3]. reflexivity. }
      destruct (IH w1) as
        [(w' & tr & Hall & Hh & Hp & Hu)
        |(pre & host & post & w2 & t1 & r' & w' & o' &
          Heq & Hpre & Hh & Hp & Hu & Hr' & Hst' & Hc' & Hall)].
      * left. exists w', (SMTPSession h t o :: tr).
        rewrite (Hstep _ _ Hall). simpl. rewrite Hh.
        repeat split; constructor; solve [exact I | assumption].
      * right.
        exists (h :: pre), host, post, w2, (SMTPSession h t o :: t1), r', w', o'.
        rewrite (Hstep _ _ Hall), (Hstep _ _ Hpre). simpl. rewrite Hh, Heq.
        repeat split; try assumption;
          constructor; solve [exact I | assumption].
Qed.

(** The MX hosts of the prober: one MX query, never an exception. *)
Lemma get_mx_hosts_run (domain : string) (t : Z) (w : world N) :
  exists mx,
    _get_mx_hosts_via_dnspython N domain t w
    = (Returns mx, snd (dns_resolve_mx N domain t w),
       [MXQuery domain t (fst (dns_resolve_mx N domain t w))])
    /\ smtp_hosts_of [MXQuery domain t (fst (dns_resolve_mx N domain t w))] = [].
Proof.
  unfold _get_mx_hosts_via_dnspython, try_except, bind, call_mx, ret.
  destruct (dns_resolve_mx N domain t w) as [[answers|e] w1]; simpl;
    eexists; split; reflexivity.
Qed.

(** The prober after its first statement, for a non-empty [domain]. *)
Lemma check_smtp_server_unfold (domain : string) (t : Z) (w : world N) :
  normalize domain <> "" ->
  check_smtp_server N domain t w
  = (hosts <- _get_mx_hosts_via_dnspython N (normalize domain) t ;;
     found <- probe_hosts N (candidate_hosts hosts (normalize domain)) t ;;
     match found with
     | Some result => ret result
     | None =>
         ret {| s_status := SmtpUnknown;
                s_message := ("Unable to determine SMTP status for domain "
                              ++ normalize domain ++ ".")%string |}
     end) w.
Proof.
  intros Hne. unfold check_smtp_server. fold (normalize domain).
  apply is_empty_false in Hne. now rewrite Hne.
Qed.

Lemma check_smtp_server_empty (domain : string) (t : Z) (w : world N) :
  normalize domain = "" ->
  check_smtp_server N domain t w
  = (Returns {| s_status := SmtpUnknown;
                s_message := "Domain is empty; cannot perform SMTP check." |},
     w, []).
Proof.
  intros He. unfold check_smtp_server. fold (normalize domain).
  now rewrite He.
Qed.

(** A run of the prober on a non-empty [domain], from the runs of its two
    parts. *)
Lemma check_smtp_server_run (domain : string) (t : Z) (w : world N)
      (mx : list string) (w1 : world N) (t1 : list event)
      (found : option smtp_result) (w2 : world N) (t2 : list event) :
  normalize domain <> "" ->
  _get_mx_hosts_via_dnspython N (normalize domain) t w = (Returns mx, w1, t1) ->
  probe_hosts N (candidate_hosts mx (normalize domain)) t w1
  = (Returns found, w2, t2) ->
  check_smtp_server N domain t w
  = (Returns
       match found with
       | Some result => result
       | None =>
           {| s_status := SmtpUnknown;
              s_message := ("Unable to determine SMTP status for domain "
                            ++ normalize domain ++ ".")%string |}
       end, w2, t1 ++ t2).
Proof.
  intros Hne Hmx Hloop.
  rewrite check_smtp_server_unfold by exact Hne.
  unfold bind. rewrite Hmx, Hloop.
  destruct found; unfold ret; now rewrite app_nil_r.
Qed.

Lemma every_probe_app (P : outcome Z -> Prop) (t1 t2 : list event) :
  every_probe P t1 -> every_probe P t2 -> every_probe P (t1 ++ t2).
Proof. intros H1 H2. apply Forall_app. now split. Qed.

Lemma every_probe_mx (P : outcome Z -> Prop) (domain : string) (t : Z)
      (o : outcome (list string)) :
  every_probe P [MXQuery domain t o].
Proof. repeat constructor. Qed.


End SmtpProperties.

Section SmtpTheorems.

Variable N : network.

Lemma reply_code_range (code : Z) :
  (200 <=? code) && (code <? 400) = true <-> 200 <= code < 400.
Proof. rewrite andb_true_iff, Z.leb_le, Z.ltb_lt. reflexivity. Qed.


(** C2.  On every input the prober returns a result (it never raises).
    When the trimmed, lower-cased domain is empty the result is [unknown]
    and nothing is probed.  Otherwise the candidates are probed in order:
    either the result is that of the first candidate whose probe is [ok]
    or [unreachable], every probe before it being [unknown] and no later
    candidate being probed, or every candidate was probed, every probe is
    [unknown], and the result is [unknown] with a message that names the
    domain. *)
Theorem check_smtp_server_first_conclusive
        (domain : string) (t : Z) (w : world N) :
  exists r w' tr,
    check_smtp_server N domain t w = (Returns r, w', tr)
    /\ (normalize domain = "" ->
        s_status r = SmtpUnknown /\ w' = w /\ tr = [])
    /\ (normalize domain <> "" ->
        exists mx w1 t1,
          _get_mx_hosts_via_dnspython N (normalize domain) t w
          = (Returns mx, w1, t1)
          /\ smtp_hosts_of t1 = []
          /\ ((exists pre host post w2 t2 o,
                  candidate_hosts mx (normalize domain) = pre ++ host :: post
                  /\ smtp_hosts_of t2 = pre
                  /\ every_probe (fun o => probe_status o = SmtpUnknown) t2
                  /\ _probe_smtp_host N host t w2
                     = (Returns r, w', [SMTPSession host t o])
                  /\ conclusive (s_status r) = true
                  /\ tr = t1 ++ t2 ++ [SMTPSession host t o]
                  /\ smtp_hosts_of tr = pre ++ [host])
              \/
              (smtp_hosts_of tr = candidate_hosts mx (normalize domain)
               /\ every_probe (fun o => probe_status o = SmtpUnknown) tr
               /\ r = {| s_status := SmtpUnknown;
                         s_message :=
                           ("Unable to determine SMTP status for domain "
                            ++ normalize domain ++ ".")%string |}))).
Proof.
  destruct (string_dec (normalize domain) "") as [He|Hne].
  - rewrite (check_smtp_server_empty N domain t w He).
    do 3 eexists. split; [reflexivity|].
    split; [intros _; repeat split | intros Hne; contradiction].
  - destruct (get_mx_hosts_run N (normalize domain) t w) as (mx & Hmx & Hnone).
    set (w1 := snd (dns_resolve_mx N (normalize domain) t w)) in *.
    set (t1 := [MXQuery (normalize domain) t
                  (fst (dns_resolve_mx N (normalize domain) t w))]) in *.
    destruct (probe_hosts_run N (candidate_hosts mx (normalize domain)) t w1)
      as [(w' & tr & Hall & Hh & Hp & Hu)
         |(pre & host & post & w2 & t2 & r & w' & o &
           Heq & Hpre & Hh & Hp & Hu & Hr & Hst & Hc & Hall)].
    + rewrite (check_smtp_server_run N domain t w _ _ _ _ _ _ Hne Hmx Hall).
      do 3 eexists. split; [reflexivity|].
      split; [intros He; contradiction|intros _].
      exists mx, w1, t1. split; [exact Hmx|]. split; [exact Hnone|].
      right. rewrite smtp_hosts_of_app, Hnone, Hh.
      repeat split. apply every_probe_app; [apply every_probe_mx|exact Hu].
    + rewrite (check_smtp_server_run N domain t w _ _ _ _ _ _ Hne Hmx Hall).
      do 3 eexists. split; [reflexivity|].
      split; [intros He; contradiction|intros _].
      exists mx, w1, t1. split; [exact Hmx|]. split; [exact Hnone|].
      left. exists pre, host, post, w2, t2, o.
      rewrite !smtp_hosts_of_app, Hnone, Hh.
      repeat split; assumption.
Qed.

(** C5.  Let [d] be the domain as the prober holds it after its first
    statement (trimmed and lower-cased), non-empty, and let the MX-derived
    host list be empty.  Then the hosts probed are taken from
    [mail.d], [mx.d], [d] in exactly that order and without a gap: they
    are a non-empty initial part of that list, and a host of the list is
    left out only when the probing stopped at a conclusive result.  When
    the result is [unknown] all three were probed. *)
Theorem guessed_hosts_probed_in_order
        (domain : string) (t : Z) (w w1 : world N) (t1 : list event) :
  normalize domain <> "" ->
  _get_mx_hosts_via_dnspython N (normalize domain) t w = (Returns [], w1, t1) ->
  exists r w' t2 probed skipped,
    check_smtp_server N domain t w = (Returns r, w', t1 ++ t2)
    /\ only_probes t2
    /\ smtp_hosts_of (t1 ++ t2) = probed
    /\ probed ++ skipped
       = [ ("mail." ++ normalize domain)%string;
           ("mx." ++ normalize domain)%string;
           normalize domain ]
    /\ probed <> []
    /\ (skipped <> [] -> conclusive (s_status r) = true)
    /\ (s_status r = SmtpUnknown -> skipped = []).
Proof.
  intros Hne Hmx.
  destruct (get_mx_hosts_run N (normalize domain) t w) as (mx & Hmx' & Hnone).
  rewrite Hmx in Hmx'. injection Hmx' as Hmx_eq Hw1 Ht1.
  rewrite <- Ht1 in Hnone. clear Hmx_eq.
  destruct (probe_hosts_run N (candidate_hosts [] (normalize domain)) t w1)
    as [(w' & tr & Hall & Hh & Hp & Hu)
       |(pre & host & post & w2 & t2 & r & w' & o &
         Heq & Hpre & Hh & Hp & Hu & Hr & Hst & Hc & Hall)].
  - rewrite (check_smtp_server_run N domain t w _ _ _ _ _ _ Hne Hmx Hall).
    exists {| s_status := SmtpUnknown;
              s_message := ("Unable to determine SMTP status for domain "
                            ++ normalize domain ++ ".")%string |},
      w', tr, (candidate_hosts [] (normalize domain)), [].
    rewrite smtp_hosts_of_app, Hnone, Hh.
    repeat split; try assumption; try discriminate.
    intros H; now contradiction H.
  - rewrite (check_smtp_server_run N domain t w _ _ _ _ _ _ Hne Hmx Hall).
    exists r, w', (t2 ++ [SMTPSession host t o]), (pre ++ [host]), post.
    rewrite !smtp_hosts_of_app, Hnone, Hh.
    repeat split.
    + apply Forall_app. split; [exact Hp|repeat constructor].
    + rewrite <- app_assoc. simpl. symmetry. exact Heq.
    + intros H. destruct pre; discriminate H.
    + intros _. exact Hc.
    + intros Hunk. rewrite Hunk in Hc. discriminate Hc.
Qed.


(** C10.  The prober gives the same result, makes the same calls and
    leaves the network in the same state on a domain and on that domain
    trimmed and lower-cased. *)
Theorem check_smtp_server_normalizes (domain : string) (t : Z) (w : world N) :
  check_smtp_server N (normalize domain) t w = check_smtp_server N domain t w.
Proof.
  unfold check_smtp_server.
  change (PyStr.lower (PyStr.strip (normalize domain)))
    with (normalize (normalize domain)).
  change (PyStr.lower (PyStr.strip domain)) with (normalize domain).
  rewrite normalize_idem. reflexivity.
Qed.

End SmtpTheorems.

(** ** The domain resolver *)

Section LookupProperties.

Variable N : network.

Lemma lookup_domain_unfold (domain : string) (t : Z) (w : world N) :
  normalize domain <> "" ->
  lookup_domain N domain t w
  = (try _resolve_with_dnspython N (normalize domain) t
     except exc =>
       if is_ImportError exc
       then _resolve_with_socket N (normalize domain) t
       else raise exc) w.
Proof.
  intros Hne. unfold lookup_domain. fold (normalize domain).
  apply is_empty_false in Hne. now rewrite Hne.
Qed.

Lemma is_ImportError_true (e : exn) :
  is_ImportError e = true <-> exn_cls e = ImportError.
Proof.
  unfold is_ImportError. destruct (exn_cls e); split; congruence.
Qed.

Lemma is_ImportError_false (e : exn) :
  is_ImportError e = false <-> exn_cls e <> ImportError.
Proof.
  unfold is_ImportError. destruct (exn_cls e); split; congruence.
Qed.

(** The MX path returns whenever the query returns. *)
Lemma resolve_with_dnspython_answers
      (domain : string) (t : Z) (w w1 : world N) (answers : list string) :
  dns_resolve_mx N domain t w = (Returns answers, w1) ->
  _resolve_with_dnspython N domain t w
  = (Returns {| l_status := match answers with
                            | [] => LookupInvalid
                            | _ :: _ => LookupOk
                            end;
                l_message := match answers with
                             | [] => "No MX records found."
                             | _ :: _ => "MX records found."
                             end;
                mx_records := map PyStr.rstrip_dot answers;
                l_method := Dnspython |},
     w1, [MXQuery domain t (Returns answers)]).
Proof.
  intros H.
  unfold _resolve_with_dnspython, try_except, bind, call_mx, ret.
  rewrite H. destruct answers; reflexivity.
Qed.

(** The MX path turns every exception but [ImportError] into a result. *)
Lemma resolve_with_dnspython_error
      (domain : string) (t : Z) (w w1 : world N) (e : exn) :
  dns_resolve_mx N domain t w = (Raises e, w1) ->
  exn_cls e <> ImportError ->
  _resolve_with_dnspython N domain t w
  = (Returns {| l_status := LookupInvalid;
                l_message := ("MX lookup failed: " ++ exn_str e)%string;
                mx_records := [];
                l_method := Dnspython |},
     w1, [MXQuery domain t (Raises e)]).
Proof.
  intros H Hcls. apply is_ImportError_false in Hcls.
  unfold _resolve_with_dnspython, try_except, bind, call_mx, ret.
  rewrite H, Hcls. reflexivity.
Qed.

(** The MX path lets [ImportError] through. *)
Lemma resolve_with_dnspython_absent
      (domain : string) (t : Z) (w w1 : world N) (e : exn) :
  dns_resolve_mx N domain t w = (Raises e, w1) ->
  exn_cls e = ImportError ->
  _resolve_with_dnspython N domain t w
  = (Raises e, w1, [MXQuery domain t (Raises e)]).
Proof.
  intros H Hcls. apply is_ImportError_true in Hcls.
  unfold _resolve_with_dnspython, try_except, bind, call_mx, raise.
  rewrite H, Hcls. reflexivity.
Qed.

(** The socket path always returns, with method [socket] and no MX host. *)
Lemma resolve_with_socket_run (domain : string) (t : Z) (w : world N) :
  exists r,
    _resolve_with_socket N domain t w
    = (Returns r, snd (socket_getaddrinfo N domain t w),
       [AddrInfo domain t (fst (socket_getaddrinfo N domain t w))])
    /\ l_method r = Socket
    /\ mx_records r = []
    /\ (fst (socket_getaddrinfo N domain t w) = Returns tt ->
        r = {| l_status := LookupOk;
               l_message := "Domain resolves via A/AAAA records.";
               mx_records := [];
               l_method := Socket |})
    /\ (forall e,
           fst (socket_getaddrinfo N domain t w) = Raises e ->
           exn_cls e = SocketGaierror ->
           r = {| l_status := LookupInvalid;
                  l_message := ("Domain does not resolve: " ++ exn_str e)%string;
                  mx_records := [];
                  l_method := Socket |})
    /\ (forall e,
           fst (socket_getaddrinfo N domain t w) = Raises e ->
           exn_cls e <> SocketGaierror ->
           r = {| l_status := LookupInvalid;
                  l_message := ("Unexpected DNS error: " ++ exn_str e)%string;
                  mx_records := [];
                  l_method := Socket |}).
Proof.
  unfold _resolve_with_socket, try_except, bind, call_getaddrinfo, ret.
  destruct (socket_getaddrinfo N domain t w) as [[[]|e] w1]; simpl.
  - eexists. split; [reflexivity|]. repeat split; intros; discriminate.
  - unfold is_gaierror.
    destruct (exn_cls e) eqn:Hcls; simpl;
      (eexists; split; [reflexivity|]);
      (split; [reflexivity|]); (split; [reflexivity|]);
      (split; [intros H; discriminate H|]);
      split; intros e' [= <-] H; solve [reflexivity | congruence].
Qed.

Lemma lookup_domain_answers
      (domain : string) (t : Z) (w w1 : world N) (answers : list string) :
  normalize domain <> "" ->
  dns_resolve_mx N (normalize domain) t w = (Returns answers, w1) ->
  lookup_domain N domain t w
  = (Returns {| l_status := match answers with
                            | [] => LookupInvalid
                            | _ :: _ => LookupOk
                            end;
                l_message := match answers with
                             | [] => "No MX records found."
                             | _ :: _ => "MX records found."
                             end;
                mx_records := map PyStr.rstrip_dot answers;
                l_method := Dnspython |},
     w1, [MXQuery (normalize domain) t (Returns answers)]).
Proof.
  intros Hne H. rewrite lookup_domain_unfold by exact Hne.
  unfold try_except.
  now rewrite (resolve_with_dnspython_answers _ _ _ _ _ H).
Qed.

Lemma lookup_domain_error
      (domain : string) (t : Z) (w w1 : world N) (e : exn) :
  normalize domain <> "" ->
  dns_resolve_mx N (normalize domain) t w = (Raises e, w1) ->
  exn_cls e <> ImportError ->
  lookup_domain N domain t w
  = (Returns {| l_status := LookupInvalid;
                l_message := ("MX lookup failed: " ++ exn_str e)%string;
                mx_records := [];
                l_method := Dnspython |},
     w1, [MXQuery (normalize domain) t (Raises e)]).
Proof.
  intros Hne H Hcls. rewrite lookup_domain_unfold by exact Hne.
  unfold try_except.
  now rewrite (resolve_with_dnspython_error _ _ _ _ _ H Hcls).
Qed.

Lemma lookup_domain_absent
      (domain : string) (t : Z) (w w1 : world N) (e : exn) :
  normalize domain <> "" ->
  dns_resolve_mx N (normalize domain) t w = (Raises e, w1) ->
  exn_cls e = ImportError ->
  exists r,
    lookup_domain N domain t w
    = (Returns r, snd (socket_getaddrinfo N (normalize domain) t w1),
       [MXQuery (normalize domain) t (Raises e);
        AddrInfo (normalize domain) t
          (fst (socket_getaddrinfo N (normalize domain) t w1))])
    /\ _resolve_with_socket N (normalize domain) t w1
       = (Returns r, snd (socket_getaddrinfo N (normalize domain) t w1),
          [AddrInfo (normalize domain) t
             (fst (socket_getaddrinfo N (normalize domain) t w1))]).
Proof.
  intros Hne H Hcls. rewrite lookup_domain_unfold by exact Hne.
  unfold try_except.
  rewrite (resolve_with_dnspython_absent _ _ _ _ _ H Hcls).
  apply is_ImportError_true in Hcls. rewrite Hcls.
  destruct (resolve_with_socket_run (normalize domain) t w1) as (r & Hr & _).
  exists r. rewrite Hr. split; reflexivity.
Qed.

Lemma lookup_domain_none (domain : string) (t : Z) (w : world N) :
  normalize domain = "" ->
  lookup_domain N domain t w
  = (Returns {| l_status := LookupInvalid;
                l_message := "Domain name is empty.";
                mx_records := [];
                l_method := MethodNone |},
     w, []).
Proof.
  intros He. unfold lookup_domain. fold (normalize domain).
  now rewrite He.
Qed.

Lemma lower_empty (s : string) : PyStr.lower s = "" <-> s = "".
Proof. destruct s; simpl; split; intros H; solve [reflexivity | discriminate H]. Qed.

Lemma map_rstrip_no_trailing_dot (answers : list string) :
  Forall (fun host => PyStr.ends_with_dot host = false)
         (map PyStr.rstrip_dot answers).
Proof.
  apply Forall_map, Forall_forall. intros a _.
  apply rstrip_dot_no_trailing_dot.
Qed.

End LookupProperties.

Section LookupTheorems.

Variable N : network.

(** C3.  Let the trimmed, lower-cased domain be non-empty, so that the MX
    query is made.  If the query returns at least one exchange name, the
    result is [ok] with method [dnspython], made by that one call, and its
    MX hosts are the exchange names with their trailing dots removed: the
    list is not empty and no host ends with a dot.  If the query returns
    no name the result is [invalid] with the message
    [No MX records found.].  If the query raises anything but
    [ImportError] the result is [invalid] with method [dnspython], carries
    the text of the exception, and is returned after that one call: no
    address lookup follows. *)
Theorem lookup_domain_mx_path (domain : string) (t : Z) (w : world N) :
  normalize domain <> "" ->
  (forall answers w1,
      dns_resolve_mx N (normalize domain) t w = (Returns answers, w1) ->
      answers <> [] ->
      lookup_domain N domain t w
      = (Returns {| l_status := LookupOk;
                    l_message := "MX records found.";
                    mx_records := map PyStr.rstrip_dot answers;
                    l_method := Dnspython |},
         w1, [MXQuery (normalize domain) t (Returns answers)])
      /\ map PyStr.rstrip_dot answers <> []
      /\ Forall (fun host => PyStr.ends_with_dot host = false)
                (map PyStr.rstrip_dot answers))
  /\ (forall w1,
         dns_resolve_mx N (normalize domain) t w = (Returns [], w1) ->
         lookup_domain N domain t w
         = (Returns {| l_status := LookupInvalid;
                       l_message := "No MX records found.";
                       mx_records := [];
                       l_method := Dnspython |},
            w1, [MXQuery (normalize domain) t (Returns [])]))
  /\ (forall e w1,
         dns_resolve_mx N (normalize domain) t w = (Raises e, w1) ->
         exn_cls e <> ImportError ->
         lookup_domain N domain t w
         = (Returns {| l_status := LookupInvalid;
                       l_message := ("MX lookup failed: " ++ exn_str e)%string;
                       mx_records := [];
                       l_method := Dnspython |},
            w1, [MXQuery (normalize domain) t (Raises e)])).
Proof.
  intros Hne. repeat split.
  - rewrite (lookup_domain_answers N _ _ _ _ _ Hne H).
    destruct answers; [contradiction|reflexivity].
  - destruct answers; [contradiction|discriminate].
  - apply map_rstrip_no_trailing_dot.
  - intros w1 H. now rewrite (lookup_domain_answers N _ _ _ _ _ Hne H).
  - intros e w1 H Hcls. now apply lookup_domain_error.
Qed.

(** C4.  Let the trimmed, lower-cased domain be non-empty and let the MX
    query raise [ImportError] (dnspython is absent).  Then the resolver
    goes on with one address lookup and returns a result (it never
    raises) with method [socket] and no MX host: [ok] when the lookup
    returns; [invalid] with the text of the exception when it raises
    [socket.gaierror]; [invalid] with the text of the exception when it
    raises anything else. *)
Theorem lookup_domain_socket_fallback
        (domain : string) (t : Z) (w w1 : world N) (e : exn) :
  normalize domain <> "" ->
  dns_resolve_mx N (normalize domain) t w = (Raises e, w1) ->
  exn_cls e = ImportError ->
  exists r,
    lookup_domain N domain t w
    = (Returns r, snd (socket_getaddrinfo N (normalize domain) t w1),
       [MXQuery (normalize domain) t (Raises e);
        AddrInfo (normalize domain) t
          (fst (socket_getaddrinfo N (normalize domain) t w1))])
    /\ l_method r = Socket
    /\ mx_records r = []
    /\ (fst (socket_getaddrinfo N (normalize domain) t w1) = Returns tt ->
        r = {| l_status := LookupOk;
               l_message := "Domain resolves via A/AAAA records.";
               mx_records := [];
               l_method := Socket |})
    /\ (forall e2,
           fst (socket_getaddrinfo N (normalize domain) t w1) = Raises e2 ->
           exn_cls e2 = SocketGaierror ->
           r = {| l_status := LookupInvalid;
                  l_message := ("Domain does not resolve: " ++ exn_str e2)%string;
                  mx_records := [];
                  l_method := Socket |})
    /\ (forall e2,
           fst (socket_getaddrinfo N (normalize domain) t w1) = Raises e2 ->
           exn_cls e2 <> SocketGaierror ->
           r = {| l_status := LookupInvalid;
                  l_message := ("Unexpected DNS error: " ++ exn_str e2)%string;
                  mx_records := [];
                  l_method := Socket |}).
Proof.
  intros Hne H Hcls.
  destruct (lookup_domain_absent N domain t w w1 e Hne H Hcls) as (r & Hrun & Hsock).
  destruct (resolve_with_socket_run N (normalize domain) t w1)
    as (r' & Hr' & Hfacts).
  rewrite Hsock in Hr'. injection Hr' as <-.
  exists r. split; [exact Hrun|exact Hfacts].
Qed.

(** C7.  The resolver always returns a result.  Its method is [none] only
    when the trimmed input is empty, and its MX host list is non-empty
    only when the method is [dnspython] and the MX query returned records
    (the hosts are those records, the status is [ok]). *)
Theorem lookup_domain_invariant (domain : string) (t : Z) (w : world N) :
  exists r w' tr,
    lookup_domain N domain t w = (Returns r, w', tr)
    /\ (l_method r = MethodNone -> PyStr.strip domain = "")
    /\ (mx_records r <> [] ->
        l_method r = Dnspython
        /\ l_status r = LookupOk
        /\ exists answers,
            fst (dns_resolve_mx N (normalize domain) t w) = Returns answers
            /\ answers <> []
            /\ mx_records r = map PyStr.rstrip_dot answers).
Proof.
  destruct (string_dec (normalize domain) "") as [He|Hne].
  - rewrite (lookup_domain_none N domain t w He).
    do 3 eexists. split; [reflexivity|]. simpl. split.
    + intros _. now apply lower_empty.
    + intros H. now contradiction H.
  - destruct (dns_resolve_mx N (normalize domain) t w) as [[answers|e] w1] eqn:H.
    + rewrite (lookup_domain_answers N _ _ _ _ _ Hne H).
      do 3 eexists. split; [reflexivity|]. simpl. split; [discriminate|].
      intros Hmx. split; [reflexivity|].
      destruct answers as [|a answers]; [now contradiction Hmx|].
      split; [reflexivity|].
      exists (a :: answers). repeat split. discriminate.
    + destruct (is_ImportError e) eqn:Hcls.
      * apply is_ImportError_true in Hcls.
        destruct (lookup_domain_absent N domain t w w1 e Hne H Hcls)
          as (r & Hrun & Hsock).
        destruct (resolve_with_socket_run N (normalize domain) t w1)
          as (r' & Hr' & Hm & Hmx & _).
        rewrite Hsock in Hr'. injection Hr' as <-.
        rewrite Hrun. do 3 eexists. split; [reflexivity|].
        rewrite Hm, Hmx. split; [discriminate|].
        intros Hc. now contradiction Hc.
      * apply is_ImportError_false in Hcls.
        rewrite (lookup_domain_error N _ _ _ _ _ Hne H Hcls).
        do 3 eexists. split; [reflexivity|]. simpl. split; [discriminate|].
        intros Hc. now contradiction Hc.
Qed.

(** C9.  When the input is empty once trimmed, the resolver returns
    [invalid] with method [none] and no MX host; it makes no call to the
    network and leaves it as it was. *)
Theorem lookup_domain_empty (domain : string) (t : Z) (w : world N) :
  PyStr.strip domain = "" ->
  lookup_domain N domain t w
  = (Returns {| l_status := LookupInvalid;
                l_message := "Domain name is empty.";
                mx_records := [];
                l_method := MethodNone |},
     w, []).
Proof.
  intros He. apply lookup_domain_none.
  unfold normalize. now rewrite He.
Qed.

End LookupTheorems.

(** ** The batch driver *)

Section MainProperties.

Variable N : network.
Variable validate : string -> io N verdict.

(** One round of the loop: the verdict of [validate], or the verdict built
    from the exception; it never raises. *)
Lemma main_round_run (email : string) (w : world N) :
  exists v,
    (try validate email
     except exc => ret (internal_error_verdict email exc)) w
    = (Returns v, snd (fst (validate email w)), snd (validate email w))
    /\ (forall exc, fst (fst (validate email w)) = Raises exc ->
                    v = internal_error_verdict email exc)
    /\ (forall v', fst (fst (validate email w)) = Returns v' -> v = v').
Proof.
  unfold try_except, ret.
  destruct (validate email w) as [[[v|exc] w1] t1]; simpl.
  - exists v. repeat split; congruence.
  - exists (internal_error_verdict email exc). rewrite app_nil_r.
    repeat split; congruence.
Qed.

(** The loop always returns; it appends one verdict per address to the
    verdicts it started with. *)
Lemma main_loop_run (emails : list string) (w : world N) :
  exists vs w' tr,
    List.length vs = List.length emails
    /\ forall results,
        main_loop N validate emails results w = (Returns (results ++ vs), w', tr).
Proof.
  revert w. induction emails as [|email rest IH]; intros w.
  - exists [], w, []. split; [reflexivity|].
    intros results. simpl. unfold ret. now rewrite app_nil_r.
  - destruct (main_round_run email w) as (v & Hv & _).
    destruct (IH (snd (fst (validate email w)))) as (vs & w' & tr & Hlen & Hrun).
    exists (v :: vs), w', (snd (validate email w) ++ tr).
    split; [simpl; now rewrite Hlen|].
    intros results. simpl. unfold bind. rewrite Hv, Hrun.
    now rewrite <- app_assoc.
Qed.

Lemma bind_assoc {A B C} (m : io N A) (f : A -> io N B) (g : B -> io N C)
      (w : world N) :
  bind (bind m f) g w = bind m (fun a => bind (f a) g) w.
Proof.
  unfold bind.
  destruct (m w) as [[[a|e] w1] t1]; [|reflexivity].
  destruct (f a w1) as [[[b|e] w2] t2]; [|reflexivity].
  destruct (g b w2) as [[o w3] t3]. now rewrite app_assoc.
Qed.

Lemma bind_ext {A B} (m : io N A) (f g : A -> io N B) (w : world N) :
  (forall a w1, f a w1 = g a w1) -> bind m f w = bind m g w.
Proof.
  intros H. unfold bind.
  destruct (m w) as [[[a|e] w1] t1]; [|reflexivity].
  now rewrite H.
Qed.

(** The loop over two batches in a row. *)
Lemma main_loop_app (pre post : list string) (results : list verdict)
      (w : world N) :
  main_loop N validate (pre ++ post) results w
  = (rs <- main_loop N validate pre results ;;
     main_loop N validate post rs) w.
Proof.
  revert results w. induction pre as [|email pre IH]; intros results w.
  - simpl. unfold bind, ret.
    destruct (main_loop N validate post results w) as [[o w'] tr].
    reflexivity.
  - simpl. rewrite bind_assoc. apply bind_ext.
    intros v w1. apply IH.
Qed.

(** C6.  The loop over a batch always returns, with one verdict per
    address.  If [validate] raises on an address of the batch, the verdict
    recorded for it has [email_status], [format] and [mailbox_status]
    equal to [unknown] and a message with the text of the exception; the
    verdicts of the addresses before it are kept, and the addresses after
    it are validated as they are when the driver is started on them alone
    in the state that the failed validation left. *)
Theorem batch_survives_failure
        (pre : list string) (email : string) (post : list string)
        (w : world N) :
  exists vs_pre w0 t0,
    main_results N validate pre w = (Returns vs_pre, w0, t0)
    /\ List.length vs_pre = List.length pre
    /\ forall exc w1 t1,
        validate email w0 = (Raises exc, w1, t1) ->
        exists vs_post w2 t2,
          main_results N validate post w1 = (Returns vs_post, w2, t2)
          /\ List.length vs_post = List.length post
          /\ main_results N validate (pre ++ email :: post) w
             = (Returns
                  (vs_pre
                   ++ {| v_email := email;
                         v_email_status := "unknown";
                         v_message := ("Internal error during validation: "
                                       ++ exn_str exc)%string;
                         v_format := "unknown";
                         v_mailbox_status := "unknown";
                         v_mailbox_type := "unknown";
                         v_domain := "" |}
                   :: vs_post),
                w2, t0 ++ t1 ++ t2).
Proof.
  unfold main_results.
  destruct (main_loop_run pre w) as (vs_pre & w0 & t0 & Hlen0 & Hpre).
  exists vs_pre, w0, t0. split; [exact (Hpre [])|]. split; [exact Hlen0|].
  intros exc w1 t1 Hval.
  destruct (main_loop_run post w1) as (vs_post & w2 & t2 & Hlen2 & Hpost).
  exists vs_post, w2, t2. split; [exact (Hpost [])|]. split; [exact Hlen2|].
  rewrite main_loop_app. unfold bind at 1. rewrite (Hpre []).
  cbn [app main_loop].
  destruct (main_round_run email w0) as (v & Hv & Hexc & _).
  unfold bind. rewrite Hv.
  rewrite Hval in Hexc |- *. cbn [fst snd] in Hexc |- *.
  rewrite (Hexc exc eq_refl), Hpost, <- app_assoc.
  reflexivity.
Qed.

End MainProperties.

(** ** The theorems at work on the sample networks *)



(** With two MX hosts of which the first fails in an unnamed way, the
    second is probed and its result is returned. *)
Lemma check_smtp_server_first_conclusive_witness :
  exists r w' tr,
    check_smtp_server net_with_mx " Example.COM " 8 0%nat = (Returns r, w', tr)
    /\ exists mx w1 t1,
        _get_mx_hosts_via_dnspython net_with_mx "example.com" 8 0%nat
        = (Returns mx, w1, t1)
        /\ ((exists pre host post,
                candidate_hosts mx "example.com" = pre ++ host :: post
                /\ conclusive (s_status r) = true
                /\ smtp_hosts_of tr = pre ++ [host])
            \/ s_status r = SmtpUnknown).
Proof.
  destruct (check_smtp_server_first_conclusive
              net_with_mx " Example.COM " 8 0%nat)
    as (r & w' & tr & Hrun & _ & Hprobe).
  exists r, w', tr. split; [exact Hrun|].
  destruct Hprobe as (mx & w1 & t1 & Hmx & _ & Hcases);
    [vm_compute; discriminate|].
  exists mx, w1, t1. split; [exact Hmx|].
  destruct Hcases
    as [(pre & host & post & w2 & t2 & o & Heq & _ & _ & _ & Hc & _ & Hh)
       |(_ & _ & Hr)].
  - left. exists pre, host, post. repeat split; assumption.
  - right. rewrite Hr. reflexivity.
Defined.

(** [Example.com] has two MX records; the resolver returns them without
    their final dots. *)
Lemma lookup_domain_mx_path_witness :
  normalize "Example.com" <> ""
  /\ lookup_domain net_with_mx "Example.com" 5 0%nat
     = (Returns {| l_status := LookupOk;
                   l_message := "MX records found.";
                   mx_records := ["mx1.example.com"; "mx2.example.com"];
                   l_method := Dnspython |},
        1%nat,
        [MXQuery "example.com" 5
           (Returns ["mx1.example.com."; "mx2.example.com."])]).
Proof.
  assert (Hne : normalize "Example.com" <> "") by (vm_compute; discriminate).
  split; [exact Hne|].
  destruct (lookup_domain_mx_path net_with_mx "Example.com" 5 0%nat Hne)
    as (Hanswers & _ & _).
  destruct (Hanswers ["mx1.example.com."; "mx2.example.com."] 1%nat)
    as (Hrun & _ & _); [reflexivity|discriminate|].
  exact Hrun.
Defined.

(** Without dnspython, [example.com] is resolved through the socket
    module. *)
Lemma lookup_domain_socket_fallback_witness :
  normalize "example.com" <> ""
  /\ exn_cls (Exn ImportError "No module named 'dns'") = ImportError
  /\ lookup_domain net_no_dnspython "example.com" 5 0%nat
     = (Returns {| l_status := LookupOk;
                   l_message := "Domain resolves via A/AAAA records.";
                   mx_records := [];
                   l_method := Socket |},
        2%nat,
        [MXQuery "example.com" 5 (Raises (Exn ImportError "No module named 'dns'"));
         AddrInfo "example.com" 5 (Returns tt)]).
Proof.
  assert (Hne : normalize "example.com" <> "") by (vm_compute; discriminate).
  split; [exact Hne|]. split; [reflexivity|].
  destruct (lookup_domain_socket_fallback
              net_no_dnspython "example.com" 5 0%nat 1%nat
              (Exn ImportError "No module named 'dns'")
              Hne eq_refl eq_refl)
    as (r & Hrun & _ & _ & Hok & _).
  rewrite <- (Hok eq_refl). exact Hrun.
Defined.

(** Without MX records the guessed hosts are tried from the first on;
    here the first one is conclusive and the other two are left out. *)
Lemma guessed_hosts_probed_in_order_witness :
  normalize "Example.com" <> ""
  /\ exists r w' t2 probed skipped,
      check_smtp_server net_no_mx "Example.com" 8 0%nat
      = (Returns r, w', [MXQuery "example.com" 8 (Returns [])] ++ t2)
      /\ smtp_hosts_of ([MXQuery "example.com" 8 (Returns [])] ++ t2) = probed
      /\ probed ++ skipped
         = ["mail.example.com"; "mx.example.com"; "example.com"]
      /\ probed <> [].
Proof.
  assert (Hne : normalize "Example.com" <> "") by (vm_compute; discriminate).
  split; [exact Hne|].
  destruct (guessed_hosts_probed_in_order
              net_no_mx "Example.com" 8 0%nat 1%nat
              [MXQuery "example.com" 8 (Returns [])] Hne eq_refl)
    as (r & w' & t2 & probed & skipped & Hrun & _ & Hh & Hsplit & Hne' & _).
  exists r, w', t2, probed, skipped. repeat split; assumption.
Defined.

(** A batch of three addresses whose second makes the validator raise. *)
Lemma batch_survives_failure_witness :
  exists vs,
    main_results net_no_mx (toy_validate net_no_mx)
                 (["a@x.org"] ++ "boom" :: ["b@y.org"]) 0%nat
    = (Returns vs, 0%nat, [])
    /\ map v_email_status vs = ["valid"; "unknown"; "valid"].
Proof.
  destruct (batch_survives_failure net_no_mx (toy_validate net_no_mx)
              ["a@x.org"] "boom" ["b@y.org"] 0%nat)
    as (vs_pre & w0 & t0 & Hpre & _ & Hfail).
  vm_compute in Hpre. injection Hpre as <- <- <-.
  destruct (Hfail (Exn OtherException "list index out of range") 0%nat [])
    as (vs_post & w2 & t2 & Hpost & _ & Hall); [reflexivity|].
  vm_compute in Hpost. injection Hpost as <- <- <-.
  eexists. split; [exact Hall|reflexivity].
Defined.

(** The MX hosts of [example.com] come with method [dnspython]. *)
Lemma lookup_domain_invariant_witness :
  exists r w' tr,
    lookup_domain net_with_mx "example.com" 5 0%nat = (Returns r, w', tr)
    /\ mx_records r <> []
    /\ l_method r = Dnspython.
Proof.
  destruct (lookup_domain_invariant net_with_mx "example.com" 5 0%nat)
    as (r & w' & tr & Hrun & _ & Hmx).
  assert (Hne : mx_records r <> []).
  { vm_compute in Hrun. injection Hrun as <- _ _. discriminate. }
  exists r, w', tr. split; [exact Hrun|]. split; [exact Hne|].
  exact (proj1 (Hmx Hne)).
Defined.


(** A domain of blanks is empty for the resolver. *)
Lemma lookup_domain_empty_witness :
  PyStr.strip "   " = ""
  /\ lookup_domain net_with_mx "   " 5 0%nat
     = (Returns {| l_status := LookupInvalid;
                   l_message := "Domain name is empty.";
                   mx_records := [];
                   l_method := MethodNone |},
        0%nat, []).
Proof.
  split; [reflexivity|].
  apply (lookup_domain_empty net_with_mx "   " 5 0%nat). reflexivity.
Defined.

(** ** Runs of the program *)

Example check_smtp_server_guessed_hosts :
  check_smtp_server net_no_dnspython " Example.COM" 8 0%nat
  = (Returns {| s_status := SmtpUnknown;
                s_message :=
                  "Unable to determine SMTP status for domain example.com." |},
     4%nat,
     [MXQuery "example.com" 8 (Raises (Exn ImportError "No module named 'dns'"));
      SMTPSession "mail.example.com" 8
        (Raises (Exn OtherException "label empty or too long"));
      SMTPSession "mx.example.com" 8
        (Raises (Exn OtherException "label empty or too long"));
      SMTPSession "example.com" 8
        (Raises (Exn OtherException "label empty or too long"))]).
Proof. reflexivity. Qed.

Example check_smtp_server_stops_early :
  check_smtp_server net_no_mx "example.com" 8 0%nat
  = (Returns {| s_status := SmtpUnreachable;
                s_message :=
                  "SMTP server mail.example.com is unreachable or disconnected." |},
     2%nat,
     [MXQuery "example.com" 8 (Returns []);
      SMTPSession "mail.example.com" 8
        (Raises (Exn SocketTimeout "timed out"))]).
Proof. reflexivity. Qed.

Example check_smtp_server_mx_hosts :
  check_smtp_server net_with_mx "example.com" 8 0%nat
  = (Returns {| s_status := SmtpOk;
                s_message :=
                  "SMTP server mx2.example.com responded with code 250." |},
     3%nat,
     [MXQuery "example.com" 8
        (Returns ["mx1.example.com."; "mx2.example.com."]);
      SMTPSession "mx1.example.com" 8
        (Raises (Exn OtherException "STARTTLS extension not supported by server."));
      SMTPSession "mx2.example.com" 8 (Returns 250)]).
Proof. reflexivity. Qed.

Example check_smtp_server_blank :
  check_smtp_server net_with_mx "  " 8 0%nat
  = (Returns {| s_status := SmtpUnknown;
                s_message := "Domain is empty; cannot perform SMTP check." |},
     0%nat, []).
Proof. reflexivity. Qed.

Example probe_smtp_host_refusing_server :
  _probe_smtp_host net_with_mx "smtp.example.org" 8 0%nat
  = (Returns {| s_status := SmtpUnreachable;
                s_message :=
                  "SMTP server smtp.example.org responded with code 554." |},
     1%nat, [SMTPSession "smtp.example.org" 8 (Returns 554)]).
Proof. reflexivity. Qed.

Example lookup_domain_query_fails :
  lookup_domain net_with_mx "Example.ORG" 5 0%nat
  = (Returns {| l_status := LookupInvalid;
                l_message :=
                  "MX lookup failed: The DNS query name does not exist";
                mx_records := [];
                l_method := Dnspython |},
     1%nat,
     [MXQuery "example.org" 5
        (Raises (Exn OtherException "The DNS query name does not exist"))]).
Proof. reflexivity. Qed.

Example lookup_domain_does_not_resolve :
  lookup_domain net_no_dnspython "example.invalid" 5 0%nat
  = (Returns {| l_status := LookupInvalid;
                l_message :=
                  "Domain does not resolve: [Errno -2] Name or service not known";
                mx_records := [];
                l_method := Socket |},
     2%nat,
     [MXQuery "example.invalid" 5
        (Raises (Exn ImportError "No module named 'dns'"));
      AddrInfo "example.invalid" 5
        (Raises (Exn SocketGaierror "[Errno -2] Name or service not known"))]).
Proof. reflexivity. Qed.

Example main_results_three_addresses :
  fst (fst (main_results net_no_mx (toy_validate net_no_mx)
              ["a@x.org"; "boom"; "b@y.org"] 0%nat))
  = Returns
      [ {| v_email := "a@x.org"; v_email_status := "valid"; v_message := "";
           v_format := "valid"; v_mailbox_status := "ok";
           v_mailbox_type := "unknown"; v_domain := "" |};
        {| v_email := "boom"; v_email_status := "unknown";
           v_message :=
             "Internal error during validation: list index out of range";
           v_format := "unknown"; v_mailbox_status := "unknown";
           v_mailbox_type := "unknown"; v_domain := "" |};
        {| v_email := "b@y.org"; v_email_status := "valid"; v_message := "";
           v_format := "valid"; v_mailbox_status := "ok";
           v_mailbox_type := "unknown"; v_domain := "" |} ].
Proof. reflexivity. Qed.

(** * Further properties *)

(** ** The domain resolver, further *)

Section LookupFurther.

Variable N : network.

Lemma is_dot_true (c : ascii) : PyStr.is_dot c = true -> c = "."%char.
Proof. unfold PyStr.is_dot. apply Ascii.eqb_eq. Qed.

(** [rstrip(".")] cuts off dots, and only at the end. *)
Lemma rstrip_dot_cuts_dots (s : string) :
  exists k, s = (PyStr.rstrip_dot s ++ dots k)%string.
Proof.
  unfold PyStr.rstrip_dot.
  induction s as [|a s (k & IH)]; [now exists O|]. simpl.
  destruct (PyStr.rstrip_by PyStr.is_dot s) as [|b s'] eqn:E.
  - simpl in IH. destruct (PyStr.is_dot a) eqn:Ha.
    + exists (S k). apply is_dot_true in Ha. subst a. simpl. now rewrite <- IH.
    + exists k. simpl. now rewrite <- IH.
  - exists k. simpl. simpl in IH. now rewrite <- IH.
Qed.

(** X1.  The resolver gives the same result, makes the same calls and
    leaves the network in the same state on a domain and on that domain
    trimmed and lower-cased. *)
Theorem lookup_domain_normalizes (domain : string) (t : Z) (w : world N) :
  lookup_domain N (normalize domain) t w = lookup_domain N domain t w.
Proof.
  unfold lookup_domain.
  change (PyStr.lower (PyStr.strip (normalize domain)))
    with (normalize (normalize domain)).
  change (PyStr.lower (PyStr.strip domain)) with (normalize domain).
  rewrite normalize_idem. reflexivity.
Qed.

(** X2.  The calls of the resolver.  It makes no call when the trimmed,
    lower-cased domain is empty; otherwise it makes one MX query, and
    after it one address lookup exactly when the query raised
    [ImportError].  Both calls are made on the trimmed, lower-cased domain
    with the timeout given, and the resolver never opens an SMTP
    session. *)
Theorem lookup_domain_calls (domain : string) (t : Z) (w : world N) :
  exists r w' tr,
    lookup_domain N domain t w = (Returns r, w', tr)
    /\ ((normalize domain = "" /\ tr = [])
        \/ (normalize domain <> ""
            /\ exists o,
                tr = [MXQuery (normalize domain) t o]
                /\ forall e, o = Raises e -> exn_cls e <> ImportError)
        \/ (normalize domain <> ""
            /\ exists e o2,
                tr = [MXQuery (normalize domain) t (Raises e);
                      AddrInfo (normalize domain) t o2]
                /\ exn_cls e = ImportError)).
Proof.
  destruct (string_dec (normalize domain) "") as [He|Hne].
  - rewrite (lookup_domain_none N domain t w He).
    do 3 eexists. split; [reflexivity|]. left. now split.
  - destruct (dns_resolve_mx N (normalize domain) t w) as [[answers|e] w1] eqn:H.
    + rewrite (lookup_domain_answers N _ _ _ _ _ Hne H).
      do 3 eexists. split; [reflexivity|]. right. left.
      split; [exact Hne|]. eexists. split; [reflexivity|].
      intros e He. discriminate He.
    + destruct (is_ImportError e) eqn:Hcls.
      * apply is_ImportError_true in Hcls.
        destruct (lookup_domain_absent N domain t w w1 e Hne H Hcls)
          as (r & Hrun & _).
        rewrite Hrun. do 3 eexists. split; [reflexivity|]. right. right.
        split; [exact Hne|]. do 2 eexists. split; [reflexivity|exact Hcls].
      * apply is_ImportError_false in Hcls.
        rewrite (lookup_domain_error N _ _ _ _ _ Hne H Hcls).
        do 3 eexists. split; [reflexivity|]. right. left.
        split; [exact Hne|]. eexists. split; [reflexivity|].
        intros e' [= <-]. exact Hcls.
Qed.

(** X3.  The resolver answers [ok] exactly when its last call succeeded:
    the MX query returned at least one record, or, dnspython being
    absent, the address lookup returned. *)
Theorem lookup_domain_ok_iff (domain : string) (t : Z) (w : world N) :
  exists r w' tr,
    lookup_domain N domain t w = (Returns r, w', tr)
    /\ (l_status r = LookupOk
        <-> (exists a answers,
                tr = [MXQuery (normalize domain) t (Returns (a :: answers))])
            \/ (exists e,
                   tr = [MXQuery (normalize domain) t (Raises e);
                         AddrInfo (normalize domain) t (Returns tt)])).
Proof.
  destruct (string_dec (normalize domain) "") as [He|Hne].
  - rewrite (lookup_domain_none N domain t w He).
    do 3 eexists. split; [reflexivity|]. simpl. split.
    + discriminate.
    + intros [(a & answers & H)|(e & H)]; discriminate H.
  - destruct (dns_resolve_mx N (normalize domain) t w) as [[answers|e] w1] eqn:H.
    + rewrite (lookup_domain_answers N _ _ _ _ _ Hne H).
      do 3 eexists. split; [reflexivity|]. simpl.
      destruct answers as [|a answers]; split.
      * discriminate.
      * intros [(a & answers & Ha)|(e & Ha)]; discriminate Ha.
      * intros _. left. now exists a, answers.
      * reflexivity.
    + destruct (is_ImportError e) eqn:Hcls.
      * apply is_ImportError_true in Hcls.
        destruct (lookup_domain_absent N domain t w w1 e Hne H Hcls)
          as (r & Hrun & Hsock).
        destruct (resolve_with_socket_run N (normalize domain) t w1)
          as (r' & Hr' & _ & _ & Hok & Hgai & Hother).
        rewrite Hsock in Hr'. injection Hr' as <-.
        rewrite Hrun. do 3 eexists. split; [reflexivity|].
        destruct (socket_getaddrinfo N (normalize domain) t w1)
          as [[[]|e2] w2]; simpl in *.
        -- rewrite (Hok eq_refl). simpl. split; [|reflexivity].
           intros _. right. now exists e.
        -- assert (Hinv : l_status r = LookupInvalid).
           { destruct (is_gaierror e2) eqn:Hg; unfold is_gaierror in Hg.
             - rewrite (Hgai e2 eq_refl); [reflexivity|].
               destruct (exn_cls e2); congruence.
             - rewrite (Hother e2 eq_refl); [reflexivity|].
               destruct (exn_cls e2); congruence. }
           rewrite Hinv. split; [discriminate|].
           intros [(a & answers & Ha)|(e' & Ha)]; discriminate Ha.
      * apply is_ImportError_false in Hcls.
        rewrite (lookup_domain_error N _ _ _ _ _ Hne H Hcls).
        do 3 eexists. split; [reflexivity|]. simpl. split; [discriminate|].
        intros [(a & answers & Ha)|(e' & Ha)]; discriminate Ha.
Qed.

(** X4.  The MX hosts of the resolver are the exchange names of the MX
    answer, in the same order and number, each changed by nothing but the
    removal of the dots at its end. *)
Theorem mx_records_are_exchange_names
        (domain : string) (t : Z) (w w1 : world N) (answers : list string) :
  normalize domain <> "" ->
  dns_resolve_mx N (normalize domain) t w = (Returns answers, w1) ->
  exists r tr,
    lookup_domain N domain t w = (Returns r, w1, tr)
    /\ Forall2 (fun answer host =>
                  PyStr.ends_with_dot host = false
                  /\ exists k, answer = (host ++ dots k)%string)
               answers (mx_records r).
Proof.
  intros Hne H. rewrite (lookup_domain_answers N _ _ _ _ _ Hne H).
  do 2 eexists. split; [reflexivity|]. simpl.
  clear H. induction answers as [|a answers IH]; simpl; constructor.
  - split; [apply rstrip_dot_no_trailing_dot|apply rstrip_dot_cuts_dots].
  - exact IH.
Qed.

(** X5.  The MX path of the resolver raises only when dnspython is
    absent: what it raises is the [ImportError] of its one MX query. *)
Theorem resolve_with_dnspython_raises_only_ImportError
        (domain : string) (t : Z) (w w1 : world N) (e : exn) (tr : list event) :
  _resolve_with_dnspython N domain t w = (Raises e, w1, tr) ->
  exn_cls e = ImportError
  /\ dns_resolve_mx N domain t w = (Raises e, w1)
  /\ tr = [MXQuery domain t (Raises e)].
Proof.
  destruct (dns_resolve_mx N domain t w) as [[answers|e'] w2] eqn:H.
  - rewrite (resolve_with_dnspython_answers N _ _ _ _ _ H). discriminate.
  - destruct (is_ImportError e') eqn:Hcls.
    + apply is_ImportError_true in Hcls.
      rewrite (resolve_with_dnspython_absent N _ _ _ _ _ H Hcls).
      intros [= <- <- <-]. repeat split. exact Hcls.
    + apply is_ImportError_false in Hcls.
      rewrite (resolve_with_dnspython_error N _ _ _ _ _ H Hcls). discriminate.
Qed.

(** X6.  The prober and the resolver read the MX answer alike: on the same
    domain, timeout and network state, the hosts that the prober derives
    are the MX hosts of the resolver's MX path, after the same call; where
    the MX path raises, the prober has no host. *)
Theorem prober_hosts_are_resolver_hosts (domain : string) (t : Z) (w : world N) :
  _get_mx_hosts_via_dnspython N domain t w
  = match _resolve_with_dnspython N domain t w with
    | (Returns r, w1, tr) => (Returns (mx_records r), w1, tr)
    | (Raises e, w1, tr) => (Returns [], w1, tr)
    end.
Proof.
  unfold _get_mx_hosts_via_dnspython, _resolve_with_dnspython,
    try_except, bind, call_mx, ret, raise.
  destruct (dns_resolve_mx N domain t w) as [[answers|e] w1]; simpl.
  - reflexivity.
  - destruct (is_ImportError e); reflexivity.
Qed.

End LookupFurther.

(** ** The SMTP prober, further *)

Section SmtpFurther.

Variable N : network.

(** The hosts that the prober derives, from the outcome of its MX query. *)
Lemma get_mx_hosts_eq (domain : string) (t : Z) (w : world N) :
  _get_mx_hosts_via_dnspython N domain t w
  = (Returns match fst (dns_resolve_mx N domain t w) with
             | Returns answers => map PyStr.rstrip_dot answers
             | Raises _ => []
             end,
     snd (dns_resolve_mx N domain t w),
     [MXQuery domain t (fst (dns_resolve_mx N domain t w))]).
Proof.
  unfold _get_mx_hosts_via_dnspython, try_except, bind, call_mx, ret.
  destruct (dns_resolve_mx N domain t w) as [[answers|e] w1]; reflexivity.
Qed.

(** The loop makes SMTP sessions only, each with the timeout given, and
    at most one per candidate. *)
Lemma probe_hosts_trace (hosts : list string) (t : Z) (w : world N) :
  exists found w' tr,
    probe_hosts N hosts t w = (Returns found, w', tr)
    /\ only_probes tr
    /\ Forall (fun ev => event_timeout ev = t) tr
    /\ (List.length tr <= List.length hosts)%nat.
Proof.
  revert w. induction hosts as [|h rest IH]; intros w.
  - exists None, w, []. repeat split; constructor.
  - destruct (probe_smtp_host_run N h t w) as (r & Hrun & _).
    simpl. unfold bind. rewrite Hrun.
    destruct (conclusive (s_status r)).
    + unfold ret. do 3 eexists. split; [reflexivity|]. simpl.
      split; [|split]; [repeat constructor..|lia].
    + destruct (IH (snd (smtp_noop N h t w)))
        as (found & w' & tr & Hrest & Hp & Ht & Hlen).
      rewrite Hrest. do 3 eexists. split; [reflexivity|]. simpl.
      split; [|split];
        [constructor; [exact I|exact Hp]
        |constructor; [reflexivity|exact Ht]
        |lia].
Qed.

Lemma probe_status_ok (o : outcome Z) :
  probe_status o = SmtpOk <-> exists code, o = Returns code /\ 200 <= code < 400.
Proof.
  split.
  - destruct o as [code|e]; simpl.
    + destruct ((200 <=? code) && (code <? 400)) eqn:Hr; [|discriminate].
      intros _. exists code. split; [reflexivity|now apply reply_code_range].
    + destruct (exn_cls e); discriminate.
  - intros (code & -> & Hr). simpl.
    apply reply_code_range in Hr. now rewrite Hr.
Qed.

Lemma probe_status_unreachable (o : outcome Z) :
  probe_status o = SmtpUnreachable
  <-> (exists code, o = Returns code /\ ~ 200 <= code < 400)
      \/ (exists e, o = Raises e
                    /\ (exn_cls e = SocketTimeout
                        \/ exn_cls e = SMTPServerDisconnected
                        \/ exn_cls e = SMTPConnectError)).
Proof.
  split.
  - destruct o as [code|e]; simpl.
    + destruct ((200 <=? code) && (code <? 400)) eqn:Hr; [discriminate|].
      intros _. left. exists code. split; [reflexivity|].
      intros H. apply reply_code_range in H. congruence.
    + intros H. right. exists e. split; [reflexivity|].
      destruct (exn_cls e); try discriminate; auto.
  - intros [(code & -> & Hr)|(e & -> & Hcls)]; simpl.
    + destruct ((200 <=? code) && (code <? 400)) eqn:Hb; [|reflexivity].
      apply reply_code_range in Hb. contradiction.
    + destruct Hcls as [H|[H|H]]; now rewrite H.
Qed.

(** The result of a probe whose session returned a code from 200 to 399. *)
Lemma probe_smtp_host_ok_result
      (host : string) (t : Z) (w w' : world N) (r : smtp_result) (code : Z) :
  _probe_smtp_host N host t w
  = (Returns r, w', [SMTPSession host t (Returns code)]) ->
  200 <= code < 400 ->
  r = {| s_status := SmtpOk;
         s_message := ("SMTP server " ++ host ++ " responded with code "
                       ++ PyStr.of_int code ++ ".")%string |}.
Proof.
  unfold _probe_smtp_host, try_except, bind, call_smtp, ret.
  destruct (smtp_noop N host t w) as [[c|e] w1]; simpl.
  - intros H Hr.
    assert (c = code).
    { destruct ((200 <=? c) && (c <? 400)); now injection H. }
    subst c. apply reply_code_range in Hr. rewrite Hr in H.
    now injection H.
  - destruct (is_timeout_or_disconnect e); intros H; discriminate H.
Qed.

Lemma guessed_hosts_distinct (domain : string) :
  NoDup (_guess_mx_host_from_domain domain).
Proof.
  unfold _guess_mx_host_from_domain.
  assert (H1 : ("mail." ++ domain)%string <> domain).
  { intros H. apply (f_equal String.length) in H. simpl in H. lia. }
  assert (H2 : ("mx." ++ domain)%string <> domain).
  { intros H. apply (f_equal String.length) in H. simpl in H. lia. }
  assert (H3 : ("mail." ++ domain)%string <> ("mx." ++ domain)%string).
  { simpl. intros H. discriminate H. }
  constructor.
  { cbn [In]. intros [H|[H|[]]]; [apply H3|apply H1]; now symmetry. }
  constructor.
  { cbn [In]. intros [H|[]]. apply H2. now symmetry. }
  constructor; [intros []|constructor].
Qed.

End SmtpFurther.

Section SmtpFurtherTheorems.

Variable N : network.

(** A run of the prober on a non-empty domain: the MX query, then probes
    of an initial part of the candidates. *)
Lemma check_smtp_server_probed (domain : string) (t : Z) (w : world N) :
  normalize domain <> "" ->
  exists r w' probes skipped,
    check_smtp_server N domain t w
    = (Returns r, w',
       MXQuery (normalize domain) t
         (fst (dns_resolve_mx N (normalize domain) t w)) :: probes)
    /\ probe_hosts N
         (candidate_hosts
            match fst (dns_resolve_mx N (normalize domain) t w) with
            | Returns answers => map PyStr.rstrip_dot answers
            | Raises _ => []
            end (normalize domain)) t
         (snd (dns_resolve_mx N (normalize domain) t w))
       = (Returns (if conclusive (s_status r) then Some r else None),
          w', probes)
    /\ smtp_hosts_of probes ++ skipped
       = candidate_hosts
           match fst (dns_resolve_mx N (normalize domain) t w) with
           | Returns answers => map PyStr.rstrip_dot answers
           | Raises _ => []
           end (normalize domain)
    /\ smtp_hosts_of probes <> []
    /\ (skipped <> [] -> conclusive (s_status r) = true)
    /\ (conclusive (s_status r) = true ->
        exists before host o w2,
          probes = before ++ [SMTPSession host t o]
          /\ s_status r = probe_status o
          /\ _probe_smtp_host N host t w2
             = (Returns r, w', [SMTPSession host t o])).
Proof.
  intros Hne.
  pose proof (get_mx_hosts_eq N (normalize domain) t w) as Hmx.
  set (mx := match fst (dns_resolve_mx N (normalize domain) t w) with
             | Returns answers => map PyStr.rstrip_dot answers
             | Raises _ => []
             end) in *.
  set (w1 := snd (dns_resolve_mx N (normalize domain) t w)) in *.
  assert (Hcand : candidate_hosts mx (normalize domain) <> []).
  { unfold candidate_hosts, _guess_mx_host_from_domain.
    destruct mx; discriminate. }
  destruct (probe_hosts_run N (candidate_hosts mx (normalize domain)) t w1)
    as [(w' & tr & Hall & Hh & Hp & Hu)
       |(pre & host & post & w2 & t2 & r & w' & o &
         Heq & Hpre & Hh & Hp & Hu & Hr & Hst & Hc & Hall)].
  - rewrite (check_smtp_server_run N domain t w _ _ _ _ _ _ Hne Hmx Hall).
    do 2 eexists. exists tr, []. simpl.
    split; [reflexivity|]. split; [exact Hall|].
    rewrite app_nil_r, Hh. split; [reflexivity|]. split; [exact Hcand|].
    split; [intros H; now contradiction H|discriminate].
  - rewrite (check_smtp_server_run N domain t w _ _ _ _ _ _ Hne Hmx Hall).
    exists r, w', (t2 ++ [SMTPSession host t o]), post.
    rewrite Hc. split; [reflexivity|]. split; [exact Hall|].
    rewrite smtp_hosts_of_app, Hh. simpl.
    rewrite <- app_assoc. simpl.
    split; [symmetry; exact Heq|].
    split; [intros H; destruct pre; discriminate H|].
    split; [reflexivity|].
    intros _. exists t2, host, o, w2. repeat split; assumption.
Qed.

(** X7.  Whenever the MX query of the prober raises - dnspython being
    absent included - or returns no record, the prober goes on with the
    guessed hosts: it probes a non-empty initial part of [mail.d], [mx.d],
    [d] for [d] the trimmed, lower-cased domain, no host twice, and leaves
    hosts out only after a conclusive probe. *)
Theorem guessed_hosts_when_mx_fails (domain : string) (t : Z) (w : world N) :
  normalize domain <> "" ->
  (exists e, fst (dns_resolve_mx N (normalize domain) t w) = Raises e)
  \/ fst (dns_resolve_mx N (normalize domain) t w) = Returns [] ->
  exists r w' probes skipped,
    check_smtp_server N domain t w
    = (Returns r, w',
       MXQuery (normalize domain) t
         (fst (dns_resolve_mx N (normalize domain) t w)) :: probes)
    /\ smtp_hosts_of probes ++ skipped
       = [ ("mail." ++ normalize domain)%string;
           ("mx." ++ normalize domain)%string;
           normalize domain ]
    /\ smtp_hosts_of probes <> []
    /\ NoDup (smtp_hosts_of probes)
    /\ (skipped <> [] -> conclusive (s_status r) = true).
Proof.
  intros Hne Hfail.
  destruct (check_smtp_server_probed domain t w Hne)
    as (r & w' & probes & skipped & Hrun & _ & Hsplit & Hnonempty & Hskip & _).
  assert (Hguess : candidate_hosts
                     match fst (dns_resolve_mx N (normalize domain) t w) with
                     | Returns answers => map PyStr.rstrip_dot answers
                     | Raises _ => []
                     end (normalize domain)
                   = _guess_mx_host_from_domain (normalize domain)).
  { destruct Hfail as [(e & ->)| ->]; reflexivity. }
  rewrite Hguess in Hsplit.
  exists r, w', probes, skipped.
  split; [exact Hrun|]. split; [exact Hsplit|]. split; [exact Hnonempty|].
  split; [|exact Hskip].
  apply NoDup_app_remove_r with (l' := skipped).
  rewrite Hsplit. apply guessed_hosts_distinct.
Qed.

(** X8.  When the MX query of the prober returns records, only MX hosts
    are probed: the hosts probed are a non-empty initial part of the
    exchange names with their final dots removed, in the order of the
    answer, and none of the guessed hosts is added to them. *)
Theorem mx_hosts_preferred
        (domain : string) (t : Z) (w : world N)
        (a : string) (answers : list string) :
  normalize domain <> "" ->
  fst (dns_resolve_mx N (normalize domain) t w) = Returns (a :: answers) ->
  exists r w' probes skipped,
    check_smtp_server N domain t w
    = (Returns r, w',
       MXQuery (normalize domain) t (Returns (a :: answers)) :: probes)
    /\ smtp_hosts_of probes ++ skipped = map PyStr.rstrip_dot (a :: answers)
    /\ smtp_hosts_of probes <> []
    /\ (skipped <> [] -> conclusive (s_status r) = true).
Proof.
  intros Hne Hanswers.
  destruct (check_smtp_server_probed domain t w Hne)
    as (r & w' & probes & skipped & Hrun & _ & Hsplit & Hnonempty & Hskip & _).
  rewrite Hanswers in Hrun, Hsplit.
  exists r, w', probes, skipped. repeat split; assumption.
Qed.

(** X9.  Where a verdict of the prober comes from.  A result [ok] is the
    result of the last call made, an SMTP session that returned a reply
    code from 200 to 399, and its message names that host and that code.
    A result [unreachable] comes from the last call made as well: an SMTP
    session that returned another code or raised [socket.timeout],
    [smtplib.SMTPServerDisconnected] or [smtplib.SMTPConnectError]. *)
Theorem smtp_verdict_provenance (domain : string) (t : Z) (w : world N) :
  exists r w' tr,
    check_smtp_server N domain t w = (Returns r, w', tr)
    /\ (s_status r = SmtpOk ->
        exists before host code,
          tr = before ++ [SMTPSession host t (Returns code)]
          /\ 200 <= code < 400
          /\ s_message r
             = ("SMTP server " ++ host ++ " responded with code "
                ++ PyStr.of_int code ++ ".")%string)
    /\ (s_status r = SmtpUnreachable ->
        exists before host o,
          tr = before ++ [SMTPSession host t o]
          /\ ((exists code, o = Returns code /\ ~ 200 <= code < 400)
              \/ (exists e, o = Raises e
                            /\ (exn_cls e = SocketTimeout
                                \/ exn_cls e = SMTPServerDisconnected
                                \/ exn_cls e = SMTPConnectError)))).
Proof.
  destruct (string_dec (normalize domain) "") as [He|Hne].
  - rewrite (check_smtp_server_empty N domain t w He).
    do 3 eexists. split; [reflexivity|]. simpl. split; discriminate.
  - destruct (check_smtp_server_probed domain t w Hne)
      as (r & w' & probes & skipped & Hrun & _ & _ & _ & _ & Hlast).
    rewrite Hrun. do 3 eexists. split; [reflexivity|]. split.
    + intros Hok.
      destruct Hlast as (before & host & o & w2 & Hprobes & Hst & Hprobe);
        [now rewrite Hok|].
      rewrite Hok in Hst. symmetry in Hst.
      apply probe_status_ok in Hst. destruct Hst as (code & -> & Hrange).
      exists (MXQuery (normalize domain) t
                (fst (dns_resolve_mx N (normalize domain) t w)) :: before),
        host, code.
      rewrite Hprobes. split; [reflexivity|]. split; [exact Hrange|].
      now rewrite (probe_smtp_host_ok_result N _ _ _ _ _ _ Hprobe Hrange).
    + intros Hun.
      destruct Hlast as (before & host & o & w2 & Hprobes & Hst & Hprobe);
        [now rewrite Hun|].
      rewrite Hun in Hst. symmetry in Hst.
      apply probe_status_unreachable in Hst.
      exists (MXQuery (normalize domain) t
                (fst (dns_resolve_mx N (normalize domain) t w)) :: before),
        host, o.
      rewrite Hprobes. split; [reflexivity|exact Hst].
Qed.

(** X10.  The calls of the prober.  It makes no call when the trimmed,
    lower-cased domain is empty.  Otherwise it makes one MX query on that
    domain and then SMTP sessions only - never an address lookup -, at
    least one and at most one per candidate: as many as the MX answer has
    records, or three when there is none.  Every call, the MX query
    included, is made with the timeout given to the prober. *)
Theorem check_smtp_server_calls (domain : string) (t : Z) (w : world N) :
  exists r w' tr,
    check_smtp_server N domain t w = (Returns r, w', tr)
    /\ Forall (fun ev => event_timeout ev = t) tr
    /\ ((normalize domain = "" /\ tr = [])
        \/ (normalize domain <> ""
            /\ exists probes,
                tr = MXQuery (normalize domain) t
                       (fst (dns_resolve_mx N (normalize domain) t w))
                     :: probes
                /\ only_probes probes
                /\ (1 <= List.length probes)%nat
                /\ (List.length probes
                    <= match fst (dns_resolve_mx N (normalize domain) t w) with
                       | Returns (a :: answers) => S (List.length answers)
                       | _ => 3
                       end)%nat)).
Proof.
  destruct (string_dec (normalize domain) "") as [He|Hne].
  - rewrite (check_smtp_server_empty N domain t w He).
    do 3 eexists. split; [reflexivity|]. split; [constructor|].
    left. now split.
  - destruct (check_smtp_server_probed domain t w Hne)
      as (r & w' & probes & skipped & Hrun & Hloop & _ & Hnonempty & _).
    set (hosts := candidate_hosts
                    match fst (dns_resolve_mx N (normalize domain) t w) with
                    | Returns answers => map PyStr.rstrip_dot answers
                    | Raises _ => []
                    end (normalize domain)) in *.
    destruct (probe_hosts_trace N hosts t
                (snd (dns_resolve_mx N (normalize domain) t w)))
      as (found & w'' & tr' & Hloop' & Hp & Ht & Hlen).
    rewrite Hloop in Hloop'. injection Hloop' as _ _ <-.
    subst hosts.
    rewrite Hrun. do 3 eexists. split; [reflexivity|].
    split; [constructor; [reflexivity|exact Ht]|].
    right. split; [exact Hne|].
    exists probes.
    split; [reflexivity|]. split; [exact Hp|]. split.
    + destruct probes; [now contradiction Hnonempty|simpl; lia].
    + destruct (fst (dns_resolve_mx N (normalize domain) t w))
        as [[|a answers]|e]; simpl in Hlen; try exact Hlen.
      now rewrite length_map in Hlen.
Qed.

End SmtpFurtherTheorems.

(** ** The batch driver, further *)

Section MainFurther.

Variable N : network.
Variable validate : string -> io N verdict.

(** The loop runs the batch address by address, whatever the verdicts it
    starts with. *)
Lemma main_loop_validated (emails : list string) (w : world N) :
  exists vs w' tr,
    validated_in_order N validate emails w vs w' tr
    /\ forall results,
        main_loop N validate emails results w = (Returns (results ++ vs), w', tr).
Proof.
  revert w. induction emails as [|email rest IH]; intros w.
  - exists [], w, []. split; [constructor|].
    intros results. simpl. unfold ret. now rewrite app_nil_r.
  - destruct (validate email w) as [[[v|exc] w1] t1] eqn:Hval;
      destruct (IH w1) as (vs & w' & tr & Hall & Hrun).
    + exists (v :: vs), w', (t1 ++ tr).
      split; [now apply validated_returned with (w1 := w1)|].
      intros results. simpl. unfold bind, try_except. rewrite Hval, Hrun.
      now rewrite <- app_assoc.
    + exists (internal_error_verdict email exc :: vs), w', (t1 ++ tr).
      split; [now apply validated_raised with (w1 := w1)|].
      intros results. simpl. unfold bind, try_except, ret.
      rewrite Hval, Hrun, app_nil_r.
      now rewrite <- app_assoc.
Qed.

(** The run of a batch from a state is one: its verdicts, final state and
    calls are determined. *)
Lemma validated_in_order_unique
      (emails : list string) (w : world N)
      (vs vs2 : list verdict) (w' w2 : world N) (tr tr2 : list event) :
  validated_in_order N validate emails w vs w' tr ->
  validated_in_order N validate emails w vs2 w2 tr2 ->
  vs = vs2 /\ w' = w2 /\ tr = tr2.
Proof.
  intros H. revert vs2 w2 tr2.
  induction H as [w|email rest w w1 w' v vs t1 tr Hval _ IH
                 |email rest w w1 w' exc vs t1 tr Hval _ IH];
    intros vs2 w2 tr2 H2; inversion H2; subst.
  - repeat split.
  - match goal with
    | Hv : validate email w = (Returns _, _, _) |- _ =>
        rewrite Hval in Hv; injection Hv as <- <- <-
    end.
    match goal with
    | Hr : validated_in_order _ _ rest w1 _ _ _ |- _ =>
        destruct (IH _ _ _ Hr) as (<- & <- & <-)
    end.
    repeat split.
  - match goal with
    | Hv : validate email w = (Raises _, _, _) |- _ =>
        rewrite Hval in Hv; discriminate Hv
    end.
  - match goal with
    | Hv : validate email w = (Returns _, _, _) |- _ =>
        rewrite Hval in Hv; discriminate Hv
    end.
  - match goal with
    | Hv : validate email w = (Raises _, _, _) |- _ =>
        rewrite Hval in Hv; injection Hv as <- <- <-
    end.
    match goal with
    | Hr : validated_in_order _ _ rest w1 _ _ _ |- _ =>
        destruct (IH _ _ _ Hr) as (<- & <- & <-)
    end.
    repeat split.
Qed.

(** X11.  The driver always returns, and what it returns is the run of the
    batch address by address: every address is validated exactly once, in
    the order of the batch, each in the state of the network that the
    validation before it left; the verdict at the place of an address is
    the one that [validate] returned on it in that state or, when
    [validate] raised, the verdict [unknown] built from that address and
    that exception; the calls made are those of these validations, in
    order, and no other. *)
Theorem main_results_in_order (emails : list string) (w : world N) :
  (exists vs w' tr, main_results N validate emails w = (Returns vs, w', tr))
  /\ forall vs w' tr,
      main_results N validate emails w = (Returns vs, w', tr)
      <-> validated_in_order N validate emails w vs w' tr.
Proof.
  destruct (main_loop_validated emails w) as (vs0 & w0 & t0 & Hall & Hrun).
  pose proof (Hrun []) as Hmain. simpl in Hmain. fold (main_results N validate emails) in Hmain.
  split; [now exists vs0, w0, t0|].
  intros vs w' tr. split.
  - intros H. rewrite Hmain in H. injection H as <- <- <-. exact Hall.
  - intros H.
    destruct (validated_in_order_unique _ _ _ _ _ _ _ _ Hall H)
      as (<- & <- & <-).
    exact Hmain.
Qed.

(** X12.  A batch can be cut in two: the driver on [pre ++ post] returns
    the verdicts of [pre] followed by the verdicts that it returns on
    [post] when started in the state in which [pre] left the network, and
    makes the calls of the two runs one after the other. *)
Theorem main_results_app (pre post : list string) (w : world N) :
  exists vs1 w1 t1 vs2 w2 t2,
    main_results N validate pre w = (Returns vs1, w1, t1)
    /\ main_results N validate post w1 = (Returns vs2, w2, t2)
    /\ main_results N validate (pre ++ post) w
       = (Returns (vs1 ++ vs2), w2, t1 ++ t2).
Proof.
  unfold main_results.
  destruct (main_loop_run N validate pre w) as (vs1 & w1 & t1 & _ & Hpre).
  destruct (main_loop_run N validate post w1) as (vs2 & w2 & t2 & _ & Hpost).
  exists vs1, w1, t1, vs2, w2, t2.
  split; [exact (Hpre [])|]. split; [exact (Hpost [])|].
  rewrite main_loop_app. unfold bind. rewrite (Hpre []). simpl.
  now rewrite Hpost.
Qed.

End MainFurther.

(** ** The settings *)

Section SettingsProperties.

Variable sample_emails_path : string.
Variable output_json_path : string.
Variable read_config : string -> config_read.

Lemma dict_get_set (d : dict) (key : string) (value : json) (key' : string) :
  dict_get (dict_set d key value) key'
  = if String.eqb key key' then Some value else dict_get d key'.
Proof.
  induction d as [|[k v] rest IH]; simpl; [reflexivity|].
  destruct (String.eqb k key) eqn:Hk; simpl.
  - apply String.eqb_eq in Hk. subst k.
    destruct (String.eqb key key'); reflexivity.
  - rewrite IH.
    destruct (String.eqb k key') eqn:Hk'; [|reflexivity].
    apply String.eqb_eq in Hk'. subst k.
    rewrite String.eqb_sym in Hk. now rewrite Hk.
Qed.

Lemma dict_get_absent (d : dict) (key : string) :
  ~ In key (map fst d) -> dict_get d key = None.
Proof.
  induction d as [|[k v] rest IH]; simpl; [reflexivity|].
  intros Hin. destruct (String.eqb k key) eqn:Hk.
  - apply String.eqb_eq in Hk. exfalso. auto.
  - apply IH. auto.
Qed.

(** After [d.update(data)], a key of [data] has the value that [data]
    gives it and any other key has the value it had. *)
Lemma dict_get_update (d data : dict) (key : string) :
  NoDup (map fst data) ->
  dict_get (dict_update d data) key
  = match dict_get data key with
    | Some v => Some v
    | None => dict_get d key
    end.
Proof.
  unfold dict_update. revert d.
  induction data as [|[k v] rest IH]; intros d Hnodup; simpl; [reflexivity|].
  inversion Hnodup as [|? ? Hnotin Hrest]; subst.
  rewrite (IH _ Hrest), dict_get_set.
  destruct (String.eqb k key) eqn:Hk.
  - apply String.eqb_eq in Hk. subst k.
    now rewrite (dict_get_absent rest key Hnotin).
  - reflexivity.
Qed.

(** [d.update(data)] removes no key. *)
Lemma dict_update_keeps (d data : dict) (key : string) :
  dict_get d key <> None -> dict_get (dict_update d data) key <> None.
Proof.
  unfold dict_update. revert d.
  induction data as [|[k v] rest IH]; intros d Hd; simpl; [exact Hd|].
  apply IH. rewrite dict_get_set.
  destruct (String.eqb k key); [discriminate|exact Hd].
Qed.

(** X13.  Whatever the configuration file holds, the settings that
    [load_settings] returns bind each of the five keys of the defaults
    ([default_input_path], [default_output_path], [dns_timeout],
    [smtp_timeout], [log_level]); hence a [settings.get(key, fallback)]
    on one of them never yields its fallback. *)
Theorem load_settings_keeps_default_keys
        (config_path : string) (settings : dict) (printed : list string)
        (key : string) :
  load_settings sample_emails_path output_json_path read_config config_path
  = SettingsReturns settings printed ->
  In key ["default_input_path"; "default_output_path"; "dns_timeout";
          "smtp_timeout"; "log_level"] ->
  exists v,
    dict_get settings key = Some v
    /\ forall fallback, dict_get_default settings key fallback = v.
Proof.
  intros Hload Hkey.
  assert (Hdef : dict_get (defaults sample_emails_path output_json_path) key
                 <> None).
  { simpl in Hkey.
    destruct Hkey as [<-|[<-|[<-|[<-|[<-|[]]]]]]; discriminate. }
  assert (Hs : dict_get settings key <> None).
  { unfold load_settings in Hload.
    destruct (read_config config_path) as [data|cls text].
    - destruct data; injection Hload as <- _; try exact Hdef.
      now apply dict_update_keeps.
    - destruct cls; try discriminate Hload; injection Hload as <- _;
        exact Hdef. }
  unfold dict_get_default.
  destruct (dict_get settings key) as [v|]; [|now contradiction Hs].
  exists v. split; reflexivity.
Qed.

(** X14.  When the configuration file holds an object, [load_settings]
    prints nothing and returns the defaults overridden by it: a key of the
    object has the value of the object - be it a key of the defaults or a
    new one -, and any other key has its default value or, if it is no
    default key, none. *)
Theorem load_settings_overrides
        (config_path : string) (items : dict) :
  read_config config_path = ConfigReturns (JDict items) ->
  NoDup (map fst items) ->
  exists settings,
    load_settings sample_emails_path output_json_path read_config config_path
    = SettingsReturns settings []
    /\ forall key,
        dict_get settings key
        = match dict_get items key with
          | Some v => Some v
          | None =>
              dict_get (defaults sample_emails_path output_json_path) key
          end.
Proof.
  intros Hread Hnodup. unfold load_settings. rewrite Hread.
  eexists. split; [reflexivity|].
  intros key. now apply dict_get_update.
Qed.

(** X15.  When the configuration file does not yield an object,
    [load_settings] raises exactly when the reading raised something that
    is neither [FileNotFoundError] nor [ValueError], and raises that;
    otherwise it returns the defaults unchanged, having printed nothing
    when the file is missing and one warning in every other case. *)
Theorem load_settings_falls_back (config_path : string) :
  (forall items, read_config config_path <> ConfigReturns (JDict items)) ->
  (forall cls text,
      load_settings sample_emails_path output_json_path read_config config_path
      = SettingsRaises cls text
      <-> cls = OtherConfigError
          /\ read_config config_path = ConfigRaises OtherConfigError text)
  /\ (forall settings printed,
         load_settings sample_emails_path output_json_path read_config
                       config_path
         = SettingsReturns settings printed ->
         settings = defaults sample_emails_path output_json_path
         /\ (printed = []
             <-> exists text,
                 read_config config_path = ConfigRaises FileNotFoundError text)
         /\ (List.length printed <= 1)%nat).
Proof.
  intros Hnot. unfold load_settings.
  destruct (read_config config_path) as [data|cls text] eqn:Hread.
  - assert (Hdata : forall items, data <> JDict items).
    { intros items ->. now apply (Hnot items). }
    split.
    + intros cls text. split.
      * destruct data; discriminate.
      * intros [_ H]. discriminate H.
    + intros settings printed Hload.
      destruct data; try (now contradiction (Hdata items));
        injection Hload as <- <-;
        (split; [reflexivity|]);
        (split; [|simpl; lia]);
        (split; [discriminate|intros [text H]; discriminate H]).
  - destruct cls; split.
    + intros cls text'. split; [discriminate|].
      intros [_ H]. discriminate H.
    + intros settings printed [= <- <-].
      split; [reflexivity|]. split; [|simpl; lia].
      split; [intros _; now exists text|reflexivity].
    + intros cls text'. split; [discriminate|].
      intros [_ H]. discriminate H.
    + intros settings printed [= <- <-].
      split; [reflexivity|]. split; [|simpl; lia].
      split; [discriminate|intros [text' H]; discriminate H].
    + intros cls text'. split.
      * intros [= <- <-]. now split.
      * intros [-> [= <-]]. reflexivity.
    + intros settings printed H. discriminate H.
Qed.

End SettingsProperties.

(** ** The further theorems at work *)

(** With dnspython installed, a failed query is the only call. *)
Lemma lookup_domain_calls_witness :
  exists r w' tr,
    lookup_domain net_with_mx "Example.ORG" 5 0%nat = (Returns r, w', tr)
    /\ exists o,
        tr = [MXQuery "example.org" 5 o]
        /\ forall e, o = Raises e -> exn_cls e <> ImportError.
Proof.
  destruct (lookup_domain_calls net_with_mx "Example.ORG" 5 0%nat)
    as (r & w' & tr & Hrun & Hcases).
  exists r, w', tr. split; [exact Hrun|].
  destruct Hcases as [[He _]|[[_ H]|[_ (e & o2 & Htr & _)]]].
  - vm_compute in He. discriminate He.
  - exact H.
  - rewrite Htr in Hrun. vm_compute in Hrun. discriminate Hrun.
Defined.

(** Two MX records make the resolver answer [ok]. *)
Lemma lookup_domain_ok_iff_witness :
  exists r w' tr,
    lookup_domain net_with_mx "example.com" 5 0%nat = (Returns r, w', tr)
    /\ l_status r = LookupOk.
Proof.
  destruct (lookup_domain_ok_iff net_with_mx "example.com" 5 0%nat)
    as (r & w' & tr & Hrun & Hiff).
  exists r, w', tr. split; [exact Hrun|].
  apply Hiff. left.
  vm_compute in Hrun. injection Hrun as _ _ <-.
  exists "mx1.example.com.", ["mx2.example.com."]. reflexivity.
Defined.

(** The two MX hosts of [example.com] and their exchange names. *)
Lemma mx_records_are_exchange_names_witness :
  normalize "example.com" <> ""
  /\ exists r tr,
      lookup_domain net_with_mx "example.com" 5 0%nat = (Returns r, 1%nat, tr)
      /\ Forall2 (fun answer host =>
                    PyStr.ends_with_dot host = false
                    /\ exists k, answer = (host ++ dots k)%string)
                 ["mx1.example.com."; "mx2.example.com."] (mx_records r).
Proof.
  assert (Hne : normalize "example.com" <> "") by (vm_compute; discriminate).
  split; [exact Hne|].
  exact (mx_records_are_exchange_names
           net_with_mx "example.com" 5 0%nat 1%nat
           ["mx1.example.com."; "mx2.example.com."] Hne eq_refl).
Defined.

(** Without dnspython the MX path raises [ImportError]. *)
Lemma resolve_with_dnspython_raises_only_ImportError_witness :
  _resolve_with_dnspython net_no_dnspython "example.com" 5 0%nat
  = (Raises (Exn ImportError "No module named 'dns'"), 1%nat,
     [MXQuery "example.com" 5 (Raises (Exn ImportError "No module named 'dns'"))])
  /\ exn_cls (Exn ImportError "No module named 'dns'") = ImportError.
Proof.
  split; [reflexivity|].
  exact (proj1 (resolve_with_dnspython_raises_only_ImportError
                  net_no_dnspython "example.com" 5 0%nat 1%nat
                  (Exn ImportError "No module named 'dns'")
                  [MXQuery "example.com" 5
                     (Raises (Exn ImportError "No module named 'dns'"))]
                  eq_refl)).
Defined.

(** Without dnspython the prober probes guessed hosts. *)
Lemma guessed_hosts_when_mx_fails_witness :
  normalize "example.com" <> ""
  /\ exists r w' probes skipped,
      check_smtp_server net_no_dnspython "example.com" 8 0%nat
      = (Returns r, w',
         MXQuery "example.com" 8
           (Raises (Exn ImportError "No module named 'dns'")) :: probes)
      /\ smtp_hosts_of probes ++ skipped
         = ["mail.example.com"; "mx.example.com"; "example.com"]
      /\ NoDup (smtp_hosts_of probes).
Proof.
  assert (Hne : normalize "example.com" <> "") by (vm_compute; discriminate).
  split; [exact Hne|].
  destruct (guessed_hosts_when_mx_fails net_no_dnspython "example.com" 8 0%nat Hne)
    as (r & w' & probes & skipped & Hrun & Hsplit & _ & Hnodup & _).
  { left. exists (Exn ImportError "No module named 'dns'"). reflexivity. }
  exists r, w', probes, skipped. repeat split; assumption.
Defined.

(** With two MX records the hosts probed are MX hosts. *)
Lemma mx_hosts_preferred_witness :
  normalize "example.com" <> ""
  /\ exists r w' probes skipped,
      check_smtp_server net_with_mx "example.com" 8 0%nat
      = (Returns r, w',
         MXQuery "example.com" 8
           (Returns ["mx1.example.com."; "mx2.example.com."]) :: probes)
      /\ smtp_hosts_of probes ++ skipped
         = ["mx1.example.com"; "mx2.example.com"].
Proof.
  assert (Hne : normalize "example.com" <> "") by (vm_compute; discriminate).
  split; [exact Hne|].
  destruct (mx_hosts_preferred net_with_mx "example.com" 8 0%nat
              "mx1.example.com." ["mx2.example.com."] Hne eq_refl)
    as (r & w' & probes & skipped & Hrun & Hsplit & _).
  exists r, w', probes, skipped. split; [exact Hrun|exact Hsplit].
Defined.

(** The result [ok] for [example.com] comes from a session that returned
    a code from 200 to 399. *)
Lemma smtp_verdict_provenance_witness :
  exists r w' tr,
    check_smtp_server net_with_mx "example.com" 8 0%nat = (Returns r, w', tr)
    /\ exists before host code,
        tr = before ++ [SMTPSession host 8 (Returns code)]
        /\ 200 <= code < 400.
Proof.
  destruct (smtp_verdict_provenance net_with_mx "example.com" 8 0%nat)
    as (r & w' & tr & Hrun & Hok & _).
  exists r, w', tr. split; [exact Hrun|].
  assert (Hst : s_status r = SmtpOk).
  { vm_compute in Hrun. injection Hrun as <- _ _. reflexivity. }
  destruct (Hok Hst) as (before & host & code & Htr & Hrange & _).
  exists before, host, code. split; assumption.
Defined.

(** The settings read from [settings.json] still bind [dns_timeout]. *)
Lemma load_settings_keeps_default_keys_witness :
  exists v,
    dict_get (dict_update (defaults "data/sample_emails.txt" "data/output.json")
                          [("smtp_timeout", JInt 20); ("retries", JInt 2)])
             "dns_timeout" = Some v
    /\ forall fallback,
        dict_get_default
          (dict_update (defaults "data/sample_emails.txt" "data/output.json")
                       [("smtp_timeout", JInt 20); ("retries", JInt 2)])
          "dns_timeout" fallback = v.
Proof.
  apply (load_settings_keeps_default_keys
           "data/sample_emails.txt" "data/output.json" sample_read_config
           "settings.json" _ [] "dns_timeout").
  - reflexivity.
  - simpl. right. right. left. reflexivity.
Defined.

(** [settings.json] overrides the SMTP timeout and adds a key. *)
Lemma load_settings_overrides_witness :
  NoDup (map fst [("smtp_timeout", JInt 20); ("retries", JInt 2)])
  /\ exists settings,
      load_settings "data/sample_emails.txt" "data/output.json"
                    sample_read_config "settings.json"
      = SettingsReturns settings []
      /\ dict_get settings "smtp_timeout" = Some (JInt 20)
      /\ dict_get settings "retries" = Some (JInt 2)
      /\ dict_get settings "dns_timeout" = Some (JInt 5).
Proof.
  assert (Hnodup : NoDup (map fst [("smtp_timeout", JInt 20);
                                    ("retries", JInt 2)])).
  { simpl. constructor.
    - intros [H|[]]. discriminate H.
    - constructor; [intros []|constructor]. }
  split; [exact Hnodup|].
  destruct (load_settings_overrides
              "data/sample_emails.txt" "data/output.json" sample_read_config
              "settings.json" [("smtp_timeout", JInt 20); ("retries", JInt 2)]
              eq_refl Hnodup)
    as (settings & Hload & Hget).
  exists settings. split; [exact Hload|].
  rewrite !Hget. repeat split; reflexivity.
Defined.

(** A file that holds no JSON gives the defaults. *)
Lemma load_settings_falls_back_witness :
  (forall items,
      sample_read_config "broken.json" <> ConfigReturns (JDict items))
  /\ forall settings printed,
      load_settings "data/sample_emails.txt" "data/output.json"
                    sample_read_config "broken.json"
      = SettingsReturns settings printed ->
      settings = defaults "data/sample_emails.txt" "data/output.json".
Proof.
  assert (Hnot : forall items,
             sample_read_config "broken.json" <> ConfigReturns (JDict items)).
  { intros items H. vm_compute in H. discriminate H. }
  split; [exact Hnot|].
  destruct (load_settings_falls_back
              "data/sample_emails.txt" "data/output.json" sample_read_config
              "broken.json" Hnot) as [_ Hret].
  intros settings printed Hload.
  exact (proj1 (Hret settings printed Hload)).
Defined.

(** ** Runs of [load_settings] *)

Example load_settings_sample :
  load_settings "data/sample_emails.txt" "data/output.json"
                sample_read_config "settings.json"
  = SettingsReturns
      [ ("default_input_path", JStr "data/sample_emails.txt");
        ("default_output_path", JStr "data/output.json");
        ("dns_timeout", JInt 5);
        ("smtp_timeout", JInt 20);
        ("log_level", JStr "INFO");
        ("retries", JInt 2) ]
      [].
Proof. reflexivity. Qed.

Example load_settings_list_root :
  load_settings "data/sample_emails.txt" "data/output.json"
                sample_read_config "list.json"
  = SettingsReturns
      (defaults "data/sample_emails.txt" "data/output.json")
      ["Warning: Failed to load config from list.json: Config root must be an object. Using defaults."].
Proof. reflexivity. Qed.

Example load_settings_missing_file :
  load_settings "data/sample_emails.txt" "data/output.json"
                sample_read_config "nowhere.json"
  = SettingsReturns (defaults "data/sample_emails.txt" "data/output.json") [].
Proof. reflexivity. Qed.

Example load_settings_unreadable_file :
  load_settings "data/sample_emails.txt" "data/output.json"
                sample_read_config "locked.json"
  = SettingsRaises OtherConfigError
      "[Errno 13] Permission denied: 'locked.json'".
Proof. reflexivity. Qed.


(** The run of a batch of three addresses whose second makes the validator
    raise. *)
Lemma main_results_in_order_witness :
  exists vs,
    validated_in_order net_no_mx (toy_validate net_no_mx)
      ["a@x.org"; "boom"; "b@y.org"] 0%nat vs 0%nat []
    /\ map v_email_status vs = ["valid"; "unknown"; "valid"].
Proof.
  destruct (main_results_in_order net_no_mx (toy_validate net_no_mx)
              ["a@x.org"; "boom"; "b@y.org"] 0%nat)
    as [(vs & w' & tr & Hrun) Hiff].
  exists vs.
  pose proof (proj1 (Hiff vs w' tr) Hrun) as Hall.
  vm_compute in Hrun. injection Hrun as <- <- <-.
  split; [exact Hall|reflexivity].
Defined.
